(** * BedJet climate entity (custom_components/bedjet/climate.py)

    A shallow embedding of the BedJet BLE climate entity: the mode
    enumerations, the notification decoder [handle_data], the retrying
    [connect] and the command entry points, followed by the properties
    proved about them.

    Conventions of the embedding:
    - Python [int] is [Z]; a [bytearray] is a [list byte]; [None] is the
      [None] of [option];
    - Python [float] is IEEE 754 binary64, taken from the Standard Library's
      executable specification [SpecFloat] (precision 53, emax 1024);
    - a method of the entity is a function of the world (entity fields,
      BLE client, trace of outward effects) returning the new world and
      either a value or the exception raised;
    - the BLE client (bleak) is outside the repository: each of its calls
      takes its outcome from a [Transport] script indexed by call number. *)

From Stdlib Require Import ZArith Lia List Bool String Ascii.
From Stdlib Require Import Strings.Byte DecimalString.
From Stdlib Require Import SpecFloat.
Import ListNotations.

Local Open Scope string_scope.
Local Open Scope list_scope.
Local Open Scope Z_scope.

(* ================================================================== *)
(** ** Python exceptions and results *)

Inductive exn : Type :=
| IndexError
| AttributeError
| ValueError
| KeyError
| TypeError
| OverflowError
| ZeroDivisionError
| BleakError                 (* bleak.BleakError *)
| TimeoutError               (* asyncio.TimeoutError: an Exception, not a BleakError *)
| CancelledError             (* asyncio.CancelledError: a BaseException only *)
| Exception (msg : string).  (* raise Exception(msg) *)

(** [except Exception] *)
Definition isinstance_Exception (e : exn) : bool :=
  match e with
  | CancelledError => false
  | _ => true
  end.

(** [except BleakError] *)
Definition isinstance_BleakError (e : exn) : bool :=
  match e with
  | BleakError => true
  | _ => false
  end.

Inductive result (A : Type) : Type :=
| Ok (a : A)
| Raise (e : exn).
Arguments Ok {A} a.
Arguments Raise {A} e.

Definition rbind {A B} (r : result A) (k : A -> result B) : result B :=
  match r with
  | Ok a => k a
  | Raise e => Raise e
  end.

(* ================================================================== *)
(** ** Python numbers *)

Module Py.

(** binary64 *)
Definition prec : Z := 53.
Definition emax : Z := 1024.

(** [float(n)] for an [int] n. *)
Definition float_of_int (n : Z) : spec_float :=
  binary_normalize prec emax n 0 false.

(** [a / b] on two [int]s: true division.  CPython returns the
    correctly rounded quotient; for operands below 2^53 in magnitude
    that is the binary64 quotient of the two converted operands. *)
Definition truediv (a b : Z) : result spec_float :=
  if b =? 0 then Raise ZeroDivisionError
  else Ok (SFdiv prec emax (float_of_int a) (float_of_int b)).

(** [n - x] with an [int] n and a [float] x. *)
Definition int_sub_float (n : Z) (x : spec_float) : spec_float :=
  SFsub prec emax (float_of_int n) x.

(** Magnitude of a finite float rounded to an integer, ties to even. *)
Definition round_mag (m : positive) (e : Z) : Z :=
  match e with
  | Zneg p =>
      let d := Z.pow_pos 2 p in
      let q := Zpos m / d in
      let r := Zpos m mod d in
      match 2 * r ?= d with
      | Lt => q
      | Gt => q + 1
      | Eq => if Z.even q then q else q + 1
      end
  | _ => Zpos m * 2 ^ e
  end.

(** [round(x)] for a [float] x (no ndigits): nearest [int], ties to even. *)
Definition round (x : spec_float) : result Z :=
  match x with
  | S754_zero _ => Ok 0
  | S754_finite s m e => Ok (if s then - round_mag m e else round_mag m e)
  | S754_infinity _ => Raise OverflowError
  | S754_nan => Raise ValueError
  end.

(** Magnitude of a finite float with the fraction dropped. *)
Definition trunc_mag (m : positive) (e : Z) : Z :=
  match e with
  | Zneg p => Zpos m / Z.pow_pos 2 p
  | _ => Zpos m * 2 ^ e
  end.

(** [int(x)] for a [float] x: truncation toward zero. *)
Definition int_of_float (x : spec_float) : result Z :=
  match x with
  | S754_zero _ => Ok 0
  | S754_finite s m e => Ok (if s then - trunc_mag m e else trunc_mag m e)
  | S754_infinity _ => Raise OverflowError
  | S754_nan => Raise ValueError
  end.

(** [str(n)] for an [int] n. *)
Definition str (n : Z) : string := NilZero.string_of_int (Z.to_int n).

(** [value[i]] on a [bytearray], [i] a non-negative literal. *)
Definition getitem (value : list byte) (i : nat) : result Z :=
  match nth_error value i with
  | Some b => Ok (Z.of_N (Byte.to_N b))
  | None => Raise IndexError
  end.

(** [range(lo, lo + n)] as a list. *)
Fixpoint range (lo : Z) (n : nat) : list Z :=
  match n with
  | O => []
  | S n' => lo :: range (lo + 1) n'
  end.

End Py.

(* ================================================================== *)
(** ** Enumerations *)

(** homeassistant.components.climate.const *)
Definition HVAC_MODE_OFF : string := "off".
Definition HVAC_MODE_HEAT : string := "heat".
Definition HVAC_MODE_COOL : string := "cool".
Definition HVAC_MODE_DRY : string := "dry".

Module FanMode.

Inductive t : Type := min | low | medium | high | max.

Definition value (m : t) : Z :=
  match m with
  | min => 10
  | low => 25
  | medium => 50
  | high => 75
  | max => 100
  end.

Definition name (m : t) : string :=
  match m with
  | min => "min"
  | low => "low"
  | medium => "medium"
  | high => "high"
  | max => "max"
  end.

(** [for fan_mode in FanMode]: members in definition order. *)
Definition members : list t := [min; low; medium; high; max].

(** [not fan_pct] for [int | None]. *)
Definition falsy (fan_pct : option Z) : bool :=
  match fan_pct with
  | None => true
  | Some p => p =? 0
  end.

Definition get_fan_mode (fan_pct : option Z) : option t :=
  match fan_pct with
  | None => None
  | Some p =>
      if falsy fan_pct then None
      else find (fun fan_mode => p <=? value fan_mode) members
  end.

(** [FanMode[name]] *)
Definition getitem (s : string) : result t :=
  match find (fun m => String.eqb s (name m)) members with
  | Some m => Ok m
  | None => Raise KeyError
  end.

End FanMode.

Module HVACMode.

Inductive t : Type := off | cool | heat | dry.

Definition value (m : t) : string :=
  match m with
  | off => HVAC_MODE_OFF
  | cool => HVAC_MODE_COOL
  | heat => HVAC_MODE_HEAT
  | dry => HVAC_MODE_DRY
  end.

Definition members : list t := [off; cool; heat; dry].

(** [HVACMode(s)]: lookup by value. *)
Definition of_value (s : string) : result t :=
  match find (fun m => String.eqb s (value m)) members with
  | Some m => Ok m
  | None => Raise ValueError
  end.

End HVACMode.

Module PresetMode.

Inductive t : Type := off | cool | heat | dry | turbo | ext_ht | m1 | m2 | m3.

Definition value (m : t) : string :=
  match m with
  | off => HVACMode.value HVACMode.off
  | cool => HVACMode.value HVACMode.cool
  | heat => HVACMode.value HVACMode.heat
  | dry => HVACMode.value HVACMode.dry
  | turbo => "turbo"
  | ext_ht => "ext_ht"
  | m1 => "m1"
  | m2 => "m2"
  | m3 => "m3"
  end.

Definition members : list t := [off; cool; heat; dry; turbo; ext_ht; m1; m2; m3].

Definition eqb (a b : t) : bool :=
  match a, b with
  | off, off | cool, cool | heat, heat | dry, dry | turbo, turbo
  | ext_ht, ext_ht | m1, m1 | m2, m2 | m3, m3 => true
  | _, _ => false
  end.

(** The dict literal of [to_hvac]. *)
Definition map : list (t * HVACMode.t) :=
  [ (off, HVACMode.off);
    (cool, HVACMode.cool);
    (heat, HVACMode.heat);
    (dry, HVACMode.dry);
    (turbo, HVACMode.heat);
    (ext_ht, HVACMode.heat) ].

(** [d.get(k)] on a dict literal. *)
Fixpoint dict_get {V} (d : list (t * V)) (k : t) : option V :=
  match d with
  | [] => None
  | (k', v) :: d' => if eqb k k' then Some v else dict_get d' k
  end.

Definition to_hvac (self : t) : option HVACMode.t := dict_get map self.

(** [PresetMode(s)]: lookup by value. *)
Definition of_value (s : string) : result t :=
  match find (fun m => String.eqb s (value m)) members with
  | Some m => Ok m
  | None => Raise ValueError
  end.

End PresetMode.

(* ================================================================== *)
(** ** The world: entity fields, BLE client, outward effects *)

(** The bound method [self.on_disconnect], the only callback ever
    handed to the client. *)
Inductive callback : Type := on_disconnect_cb.

(** Effects that leave the entity, in program order. *)
Inductive event : Type :=
| Connect                                        (* await client.connect() *)
| Disconnect                                     (* await client.disconnect() *)
| Sleep (seconds : Z)                            (* await asyncio.sleep(seconds) *)
| SetDisconnectedCallback (cb : option callback) (* client.set_disconnected_callback(cb) *)
| WriteGattChar (uuid : string) (data : list (option Z))
| ScheduleUpdateHaState
| CreateTaskConnectAndSubscribe.

(** Outcome of one call into the BLE client. *)
Record call_result : Type := mk_call_result {
  raised : option exn;
  connected_after : bool
}.

(** Behaviour of the BLE stack, indexed by the call number (from 0). *)
Record Transport : Type := mk_Transport {
  connect_result : nat -> call_result;
  disconnect_result : nat -> call_result;
  write_result : nat -> call_result
}.

Record BleakClient : Type := mk_BleakClient {
  client_is_connected : bool;
  disconnected_callback : option callback;
  connect_calls : nat;
  disconnect_calls : nat;
  write_calls : nat
}.

(** The private fields of [BedjetDeviceEntity]. *)
Record Entity : Type := mk_Entity {
  _mac : string;
  _current_temperature : option Z;
  _target_temperature : option Z;
  _hvac_mode : option HVACMode.t;
  _preset_mode : option PresetMode.t;
  _time : option Z;
  _timestring : option string;
  _fan_pct : option Z;
  _last_seen : option Z
}.

Record World : Type := mk_World {
  self : Entity;
  _client : BleakClient;
  trace : list event
}.

(** A method body: reads and writes the world, returns or raises. *)
Definition M (A : Type) : Type := World -> World * result A.

Definition ret {A} (a : A) : M A := fun w => (w, Ok a).

Definition raise {A} (e : exn) : M A := fun w => (w, Raise e).

Definition bind {A B} (m : M A) (k : A -> M B) : M B :=
  fun w =>
    match m w with
    | (w', Ok a) => k a w'
    | (w', Raise e) => (w', Raise e)
    end.

(** A pure computation that may raise. *)
Definition lift {A} (r : result A) : M A := fun w => (w, r).

(** [try: body  except C as error: handler error], [C] given by its
    [isinstance] test. *)
Definition try_except {A} (body : M A) (catches : exn -> bool)
    (handler : exn -> M A) : M A :=
  fun w =>
    match body w with
    | (w', Ok a) => (w', Ok a)
    | (w', Raise e) => if catches e then handler e w' else (w', Raise e)
    end.

Definition emit (ev : event) : M unit :=
  fun w => (mk_World (self w) (_client w) (trace w ++ [ev]), Ok tt).

Definition update_self (f : Entity -> Entity) : M unit :=
  fun w => (mk_World (f (self w)) (_client w) (trace w), Ok tt).

Definition update_client (f : BleakClient -> BleakClient) : M unit :=
  fun w => (mk_World (self w) (f (_client w)) (trace w), Ok tt).

Declare Scope py_scope.
Delimit Scope py_scope with py.
Notation "x <- c ;; k" := (bind c (fun x => k))
  (at level 61, c at next level, right associativity) : py_scope.
Notation "c ;; k" := (bind c (fun _ => k))
  (at level 61, right associativity) : py_scope.
Notation "'let!' x ':=' c 'in' k" := (rbind c (fun x => k))
  (at level 10, x name, c at level 100, k at level 200).

(* ------------------------------------------------------------------ *)
(** *** Property setters *)

Module Setter.

Definition current_temperature (value : Z) (e : Entity) : Entity :=
  mk_Entity (_mac e) (Some value) (_target_temperature e) (_hvac_mode e)
    (_preset_mode e) (_time e) (_timestring e) (_fan_pct e) (_last_seen e).

Definition target_temperature (value : Z) (e : Entity) : Entity :=
  mk_Entity (_mac e) (_current_temperature e) (Some value) (_hvac_mode e)
    (_preset_mode e) (_time e) (_timestring e) (_fan_pct e) (_last_seen e).

Definition time (value : Z) (e : Entity) : Entity :=
  mk_Entity (_mac e) (_current_temperature e) (_target_temperature e)
    (_hvac_mode e) (_preset_mode e) (Some value) (_timestring e) (_fan_pct e)
    (_last_seen e).

Definition timestring (value : string) (e : Entity) : Entity :=
  mk_Entity (_mac e) (_current_temperature e) (_target_temperature e)
    (_hvac_mode e) (_preset_mode e) (_time e) (Some value) (_fan_pct e)
    (_last_seen e).

Definition fan_pct (value : Z) (e : Entity) : Entity :=
  mk_Entity (_mac e) (_current_temperature e) (_target_temperature e)
    (_hvac_mode e) (_preset_mode e) (_time e) (_timestring e) (Some value)
    (_last_seen e).

Definition hvac_mode (value : option HVACMode.t) (e : Entity) : Entity :=
  mk_Entity (_mac e) (_current_temperature e) (_target_temperature e)
    value (_preset_mode e) (_time e) (_timestring e) (_fan_pct e)
    (_last_seen e).

Definition preset_mode (value : option PresetMode.t) (e : Entity) : Entity :=
  mk_Entity (_mac e) (_current_temperature e) (_target_temperature e)
    (_hvac_mode e) value (_time e) (_timestring e) (_fan_pct e)
    (_last_seen e).

Definition last_seen (value : Z) (e : Entity) : Entity :=
  mk_Entity (_mac e) (_current_temperature e) (_target_temperature e)
    (_hvac_mode e) (_preset_mode e) (_time e) (_timestring e) (_fan_pct e)
    (Some value).

End Setter.

(* ------------------------------------------------------------------ *)
(** *** Property getters that compute *)

(** [fan_mode]: [FanMode.get_fan_mode(self.fan_pct).name if self.fan_pct else None];
    [.name] on [None] raises. *)
Definition fan_mode (e : Entity) : result (option string) :=
  if FanMode.falsy (_fan_pct e) then Ok None
  else match FanMode.get_fan_mode (_fan_pct e) with
       | Some m => Ok (Some (FanMode.name m))
       | None => Raise AttributeError
       end.

Definition hvac_mode (e : Entity) : option string :=
  option_map HVACMode.value (_hvac_mode e).

Definition preset_mode (e : Entity) : option string :=
  option_map PresetMode.value (_preset_mode e).

Definition min_temp : Z := 66.
Definition max_temp : Z := 109.

(* ================================================================== *)
(** ** handle_data: the notification decoder *)

Module Decode.

Definition get_current_temperature (value : list byte) : result Z :=
  let! a := Py.getitem value 7 in
  let! b := Py.getitem value 7 in
  let! q := Py.truediv (b - 0x26) 9 in
  Py.round (Py.int_sub_float ((a - 0x26) + 66) q).

Definition get_target_temperature (value : list byte) : result Z :=
  let! a := Py.getitem value 8 in
  let! b := Py.getitem value 8 in
  let! q := Py.truediv (b - 0x26) 9 in
  Py.round (Py.int_sub_float ((a - 0x26) + 66) q).

Definition get_time (value : list byte) : result Z :=
  let! h := Py.getitem value 4 in
  let! m := Py.getitem value 5 in
  let! s := Py.getitem value 6 in
  Ok ((h * 60 * 60) + (m * 60) + s).

Definition get_timestring (value : list byte) : result string :=
  let! h := Py.getitem value 4 in
  let! m := Py.getitem value 5 in
  let! s := Py.getitem value 6 in
  Ok (Py.str h ++ ":" ++ Py.str m ++ ":" ++ Py.str s)%string.

Definition get_fan_pct (value : list byte) : result Z :=
  let! f := Py.getitem value 10 in
  Ok (f * 5).

(** [value[i] == c] *)
Definition item_is (value : list byte) (i : nat) (c : Z) : result bool :=
  let! a := Py.getitem value i in Ok (a =? c).

(** [p and q], the right operand evaluated only when the left holds. *)
Definition and_then (p q : result bool) : result bool :=
  let! a := p in if a then q else Ok false.

(** [if c: return r], then the rest of the body. *)
Definition if_return {A} (c : result bool) (r : A) (rest : result A)
    : result A :=
  let! a := c in if a then Ok r else rest.

Definition get_preset_mode (value : list byte) : result (option PresetMode.t) :=
  if_return (and_then (item_is value 14 0x50) (item_is value 13 0x14))
    (Some PresetMode.off)
  (if_return (item_is value 14 0x34) (Some PresetMode.cool)
  (if_return (item_is value 14 0x56) (Some PresetMode.turbo)
  (if_return (and_then (item_is value 14 0x50) (item_is value 13 0x2d))
    (Some PresetMode.heat)
  (if_return (item_is value 14 0x3e) (Some PresetMode.dry)
  (if_return (item_is value 14 0x43) (Some PresetMode.ext_ht)
  (if_return (item_is value 14 0x20) (Some PresetMode.m1)
  (if_return (item_is value 14 0x21) (Some PresetMode.m2)
  (if_return (item_is value 14 0x22) (Some PresetMode.m3)
  (Ok None))))))))).

(** [get_preset_mode(value).to_hvac()]: attribute access on [None]
    raises. *)
Definition get_hvac_mode (value : list byte) : result (option HVACMode.t) :=
  let! p := get_preset_mode value in
  match p with
  | Some preset => Ok (PresetMode.to_hvac preset)
  | None => Raise AttributeError
  end.

End Decode.

Local Open Scope py_scope.

(** Tells the host that the state changed. *)
Definition schedule_update_ha_state : M unit := emit ScheduleUpdateHaState.

(** [now] is the value of [datetime.now()] at the call. *)
Definition handle_data (now : Z) (value : list byte) : M unit :=
  v <- lift (Decode.get_current_temperature value) ;;
  update_self (Setter.current_temperature v) ;;
  v <- lift (Decode.get_target_temperature value) ;;
  update_self (Setter.target_temperature v) ;;
  v <- lift (Decode.get_time value) ;;
  update_self (Setter.time v) ;;
  v <- lift (Decode.get_timestring value) ;;
  update_self (Setter.timestring v) ;;
  v <- lift (Decode.get_fan_pct value) ;;
  update_self (Setter.fan_pct v) ;;
  v <- lift (Decode.get_hvac_mode value) ;;
  update_self (Setter.hvac_mode v) ;;
  v <- lift (Decode.get_preset_mode value) ;;
  update_self (Setter.preset_mode v) ;;
  update_self (Setter.last_seen now) ;;
  schedule_update_ha_state.

(* ================================================================== *)
(** ** The entity's methods *)

(** [BedjetDeviceEntity(device)]: the client is built with the
    disconnect callback already installed; [address] is
    [device.address]. *)
Definition __init__ (address : string) : World :=
  mk_World
    (mk_Entity address None None None None None None None None)
    (mk_BleakClient false (Some on_disconnect_cb) 0 0 0)
    [].

Definition is_connected : M bool :=
  fun w => (w, Ok (client_is_connected (_client w))).

Definition mac : M string := fun w => (w, Ok (_mac (self w))).

(** [client.set_disconnected_callback(cb)] *)
Definition set_disconnected_callback (cb : option callback) : M unit :=
  update_client (fun c =>
    mk_BleakClient (client_is_connected c) cb (connect_calls c)
      (disconnect_calls c) (write_calls c)) ;;
  emit (SetDisconnectedCallback cb).

Definition sleep (seconds : Z) : M unit := emit (Sleep seconds).

(** Return or raise as the call's outcome says. *)
Definition outcome (r : call_result) : M unit :=
  match raised r with
  | Some e => raise e
  | None => ret tt
  end.

Section Methods.

(** The BLE stack the client talks to. *)
Variable bleak : Transport.

(** const.py is outside this development: the command table
    [BEDJET_COMMANDS] is taken as its [.get], the command characteristic
    as its value. *)
Variable BEDJET_COMMANDS : string -> option Z.
Variable BEDJET_COMMAND_UUID : string.

(** [await self.client.connect()] *)
Definition client_connect : M unit :=
  emit Connect ;;
  n <- (fun w => (w, Ok (connect_calls (_client w)))) ;;
  let r := connect_result bleak n in
  update_client (fun c =>
    mk_BleakClient (connected_after r) (disconnected_callback c)
      (S (connect_calls c)) (disconnect_calls c) (write_calls c)) ;;
  outcome r.

(** [await self.client.disconnect()] *)
Definition client_disconnect : M unit :=
  emit Disconnect ;;
  n <- (fun w => (w, Ok (disconnect_calls (_client w)))) ;;
  let r := disconnect_result bleak n in
  update_client (fun c =>
    mk_BleakClient (connected_after r) (disconnected_callback c)
      (connect_calls c) (S (disconnect_calls c)) (write_calls c)) ;;
  outcome r.

(** [await self._client.write_gatt_char(uuid, data)] *)
Definition client_write_gatt_char (uuid : string) (data : list (option Z))
    : M unit :=
  emit (WriteGattChar uuid data) ;;
  n <- (fun w => (w, Ok (write_calls (_client w)))) ;;
  let r := write_result bleak n in
  update_client (fun c =>
    mk_BleakClient (connected_after r) (disconnected_callback c)
      (connect_calls c) (disconnect_calls c) (S (write_calls c))) ;;
  outcome r.

Definition reconnect_interval : Z := 10.

(** The text of the exception raised when the attempts run out. *)
Definition connect_failed_message (address : string) (max_retries : Z)
    : string :=
  ("Failed to connect to " ++ address ++ " after " ++ Py.str max_retries
     ++ " attempts.")%string.

(** The [try] statement of the loop body, for loop variable [i]. *)
Definition connect_attempt (i : Z) : M unit :=
  try_except client_connect isinstance_Exception (fun error =>
    let backoff_seconds := (i + 1) * reconnect_interval in
    try_except client_disconnect isinstance_BleakError
      (fun error => ret tt) ;;
    sleep backoff_seconds).

(** One pass of the [for] body with loop variable [i], then the
    remaining [n] passes unless the body hit [break]. *)
Fixpoint connect_loop (n : nat) (i : Z) : M unit :=
  match n with
  | O => ret tt
  | S n' =>
      connect_attempt i ;;
      c <- is_connected ;;
      if c then set_disconnected_callback (Some on_disconnect_cb)
      else connect_loop n' (i + 1)
  end.

(** [for i in range(0, max_retries)] runs [max_retries] passes, none
    when [max_retries <= 0]. *)
Definition connect (max_retries : Z) : M unit :=
  connect_loop (Z.to_nat max_retries) 0 ;;
  c <- is_connected ;;
  if negb c then
    address <- mac ;;
    raise (Exception (connect_failed_message address max_retries))
  else ret tt.

(** The default of the keyword argument [max_retries]. *)
Definition connect_default_max_retries : Z := 10.

(** [on_disconnect(client)]: the client calls it from the running event
    loop; the state update and the spawn of the reconnect task are
    recorded as effects, and the task is not run here. *)
Definition on_disconnect : M unit :=
  set_disconnected_callback None ;;
  schedule_update_ha_state ;;
  emit CreateTaskConnectAndSubscribe.

Definition disconnect : M unit :=
  set_disconnected_callback None ;;
  client_disconnect.

(* ---------------------------------------------------------------- *)
(** *** Commands *)

Definition send_command (command : list (option Z)) : M unit :=
  c <- is_connected ;;
  if c then client_write_gatt_char BEDJET_COMMAND_UUID command
  else ret tt.

Definition set_mode (mode : option Z) : M unit :=
  send_command [Some 0x01; mode].

(** [//] and [%] on [int]s round toward minus infinity, as [Z.div]
    and [Z.modulo] do for a positive divisor. *)
Definition set_time (minutes : Z) : M unit :=
  send_command [Some 0x02; Some (minutes / 60); Some (minutes mod 60)].

(** What a caller may pass as [fan_mode]. *)
Inductive fan_arg : Type :=
| FanStr (s : string)
| FanInt (n : Z)
| FanFloat (x : spec_float)
| FanMember (m : FanMode.t).

Definition is_digit (c : ascii) : bool :=
  let n := N_of_ascii c in ((48 <=? n) && (n <=? 57))%N.

(** [s.isnumeric()] on ASCII text: non-empty, digits only. *)
Definition isnumeric (s : string) : bool :=
  match s with
  | EmptyString => false
  | _ => forallb is_digit (list_ascii_of_string s)
  end.

(** [int(s)] for a string. *)
Definition int_of_str (s : string) : result Z :=
  if isnumeric s then
    match NilEmpty.uint_of_string s with
    | Some u => Ok (Z.of_uint u)
    | None => Raise ValueError
    end
  else Raise ValueError.

(** The branch on [str(fan_mode).isnumeric()]: a digit string or a
    non-negative [int] is read as a percentage, a member name is looked
    up, anything else has no entry in [FanMode]. *)
Definition resolve_fan_pct (fan_mode : fan_arg) : result Z :=
  match fan_mode with
  | FanStr s => if isnumeric s then int_of_str s
                else let! m := FanMode.getitem s in Ok (FanMode.value m)
  | FanInt n => if 0 <=? n then Ok n else Raise KeyError
  | FanFloat _ => Raise KeyError
  | FanMember _ => Raise KeyError
  end.

(** The data byte of the fan command: [round(fan_pct/5)-1]. *)
Definition fan_byte (fan_pct : Z) : result Z :=
  let! q := Py.truediv fan_pct 5 in
  let! r := Py.round q in
  Ok (r - 1).

Definition async_set_fan_mode (fan_mode : fan_arg) : M unit :=
  fan_pct <- lift (resolve_fan_pct fan_mode) ;;
  if negb ((fan_pct >=? 0) && (fan_pct <=? 100)) then ret tt
  else
    b <- lift (fan_byte fan_pct) ;;
    send_command [Some 0x07; Some b].

(** The data byte of the temperature command, from
    [temp = round(float(temperature))]. *)
Definition temp_byte (temperature : Z) : result Z :=
  let! temp := Py.round (Py.float_of_int temperature) in
  let! q := Py.truediv (temp - 60) 9 in
  let! k := Py.int_of_float q in
  Ok ((k + (temp - 66)) + 0x26).

(** [temperature] is [kwargs.get(ATTR_TEMPERATURE)] when it is an
    [int]; [int(None)] raises. *)
Definition async_set_temperature (temperature : option Z) : M unit :=
  match temperature with
  | None => raise TypeError
  | Some t =>
      b <- lift (temp_byte t) ;;
      send_command [Some 0x03; Some b]
  end.

Definition HVACMode_command (m : HVACMode.t) : option Z :=
  BEDJET_COMMANDS (HVACMode.value m).

Definition PresetMode_command (m : PresetMode.t) : option Z :=
  BEDJET_COMMANDS (PresetMode.value m).

Definition async_set_hvac_mode (hvac_mode : string) : M unit :=
  m <- lift (HVACMode.of_value hvac_mode) ;;
  set_mode (HVACMode_command m) ;;
  set_time 600.

Definition async_set_preset_mode (preset_mode : string) : M unit :=
  m <- lift (PresetMode.of_value preset_mode) ;;
  set_mode (PresetMode_command m).

End Methods.

(* ================================================================== *)
(** ** Scenarios: transports, payloads and worlds used below *)

(** A BLE stack that is out of reach: every connect raises a
    [BleakError], the cleanup disconnect returns, the link stays down. *)
Definition transport_down : Transport :=
  mk_Transport
    (fun _ => mk_call_result (Some BleakError) false)
    (fun _ => mk_call_result None false)
    (fun _ => mk_call_result (Some BleakError) false).

(** The same, except that the cleanup disconnect times out. *)
Definition transport_disconnect_times_out : Transport :=
  mk_Transport
    (fun _ => mk_call_result (Some BleakError) false)
    (fun _ => mk_call_result (Some TimeoutError) false)
    (fun _ => mk_call_result (Some BleakError) false).

(** A BLE stack on which every call goes through. *)
Definition transport_up : Transport :=
  mk_Transport
    (fun _ => mk_call_result None true)
    (fun _ => mk_call_result None false)
    (fun _ => mk_call_result None true).

(** A newly constructed entity. *)
Definition fresh_entity : World := __init__ "C0:FF:EE:00:00:01".

Definition command_uuid : string := "command-characteristic".

(** A session that has connected on the first attempt. *)
Definition connected_entity : World :=
  fst (connect transport_up 10 fresh_entity).

(** A 15-byte notification whose byte 7 is 43 and byte 8 is 60, with
    the discriminators of Off. *)
Definition notification_off : list byte :=
  [x00; x00; x00; x00; x01; x02; x03; x2b; x3c; x00; x08; x00; x00; x14; x50].

(** A 15-byte notification whose discriminator bytes (0x00, 0x00) match
    no preset; byte 7 is 0x26. *)
Definition notification_unmatched : list byte :=
  [x00; x00; x00; x00; x00; x00; x09; x26; x26; x00; x02; x00; x00; x00; x00].

(** The state stored by an earlier, complete notification. *)
Definition world_after_off : World :=
  fst (handle_data 1000 notification_off fresh_entity).

(** The discriminator table in the specification's words: byte 14
    selects the preset, and byte 13 settles the one shared byte 0x50. *)
Definition preset_of_discriminators (b13 b14 : Z) : option PresetMode.t :=
  if b14 =? 0x34 then Some PresetMode.cool
  else if b14 =? 0x56 then Some PresetMode.turbo
  else if b14 =? 0x3e then Some PresetMode.dry
  else if b14 =? 0x43 then Some PresetMode.ext_ht
  else if b14 =? 0x20 then Some PresetMode.m1
  else if b14 =? 0x21 then Some PresetMode.m2
  else if b14 =? 0x22 then Some PresetMode.m3
  else if b14 =? 0x50 then
    if b13 =? 0x14 then Some PresetMode.off
    else if b13 =? 0x2d then Some PresetMode.heat
    else None
  else None.

Section Attempts.

Variable bleak : Transport.

(** The [k]-th connect call raises something [except Exception]
    catches, and the cleanup disconnect (its [d]-th call) leaves the
    link down and raises nothing but a [BleakError]. *)
Definition attempt_fails (k d : nat) : Prop :=
  (exists e, raised (connect_result bleak k) = Some e /\
             isinstance_Exception e = true) /\
  connected_after (disconnect_result bleak d) = false /\
  match raised (disconnect_result bleak d) with
  | None => True
  | Some e => isinstance_BleakError e = true
  end.

(** The [k]-th connect call returns with the link up. *)
Definition attempt_succeeds (k : nat) : Prop :=
  raised (connect_result bleak k) = None /\
  connected_after (connect_result bleak k) = true.

(** The effects of [n] failed passes, the first with loop variable [i]. *)
Fixpoint failed_rounds (n : nat) (i : Z) : list event :=
  match n with
  | O => []
  | S n' => Connect :: Disconnect :: Sleep ((i + 1) * 10)
              :: failed_rounds n' (i + 1)
  end.

(** The world after [n] failed passes. *)
Definition after_failures (w : World) (n : nat) (i : Z) : World :=
  mk_World (self w)
    (mk_BleakClient
       (match n with O => client_is_connected (_client w) | S _ => false end)
       (disconnected_callback (_client w))
       (connect_calls (_client w) + n)
       (disconnect_calls (_client w) + n)
       (write_calls (_client w)))
    (trace w ++ failed_rounds n i).

(** The world after [n] failed passes and one that connects. *)
Definition after_success (w : World) (n : nat) (i : Z) : World :=
  mk_World (self w)
    (mk_BleakClient true (Some on_disconnect_cb)
       (S (connect_calls (_client w) + n))
       (disconnect_calls (_client w) + n)
       (write_calls (_client w)))
    (trace w ++ failed_rounds n i
       ++ [Connect; SetDisconnectedCallback (Some on_disconnect_cb)]).

End Attempts.

Definition is_callback_event (ev : event) : bool :=
  match ev with
  | SetDisconnectedCallback _ => true
  | _ => false
  end.

(** No [set_disconnected_callback] among the effects. *)
Definition callback_free (evs : list event) : Prop :=
  Forall (fun ev => is_callback_event ev = false) evs.

(** Equality test on decoded integers, for checks by enumeration. *)
Definition result_Z_eqb (a b : result Z) : bool :=
  match a, b with
  | Ok x, Ok y => x =? y
  | _, _ => false
  end.

(* ================================================================== *)
(** ** Subscription: the world and the notification channel *)

(** Effects seen at the level of the subscription: those of the world,
    and the registration of [handle_data] on a characteristic. *)
Inductive sub_event : Type :=
| Base (ev : event)
| StartNotify (uuid : string).  (* await client.start_notify(uuid, callback=self.handle_data) *)

(** The entity and its client, with the number of [start_notify] calls
    made so far and the effects in program order. *)
Record Session : Type := mk_Session {
  session_self : Entity;
  session_client : BleakClient;
  notify_calls : nat;
  session_trace : list sub_event
}.

(** A method that may also subscribe. *)
Definition Sub (A : Type) : Type := Session -> Session * result A.

Definition sret {A} (a : A) : Sub A := fun s => (s, Ok a).

Definition sraise {A} (e : exn) : Sub A := fun s => (s, Raise e).

Definition sbind {A B} (m : Sub A) (k : A -> Sub B) : Sub B :=
  fun s =>
    match m s with
    | (s', Ok a) => k a s'
    | (s', Raise e) => (s', Raise e)
    end.

(** [try: body  except C as error: handler error] *)
Definition stry_except {A} (body : Sub A) (catches : exn -> bool)
    (handler : exn -> Sub A) : Sub A :=
  fun s =>
    match body s with
    | (s', Ok a) => (s', Ok a)
    | (s', Raise e) => if catches e then handler e s' else (s', Raise e)
    end.

(** A method of the world run inside a session: it sees the entity and
    the client, and its effects are appended in order. *)
Definition in_world {A} (m : M A) : Sub A :=
  fun s =>
    match m (mk_World (session_self s) (session_client s) []) with
    | (w', r) =>
        (mk_Session (self w') (_client w') (notify_calls s)
           (session_trace s ++ List.map Base (trace w')),
         r)
    end.

(** The session of a newly constructed entity. *)
Definition new_session (address : string) : Session :=
  mk_Session (self (__init__ address)) (_client (__init__ address)) 0 [].

Declare Scope sub_scope.
Delimit Scope sub_scope with sub.
Notation "x <- c ;; k" := (sbind c (fun x => k))
  (at level 61, c at next level, right associativity) : sub_scope.
Notation "c ;; k" := (sbind c (fun _ => k))
  (at level 61, right associativity) : sub_scope.

Section Subscription.

(** The BLE stack: its connect, disconnect and write behaviour, and
    the outcome of each [start_notify] call by call number. *)
Variable bleak : Transport.
Variable notify_result : nat -> call_result.

(** const.py is outside this development: the notification
    characteristic is taken as its value. *)
Variable BEDJET_SUBSCRIPTION_UUID : string.

(** [await self.client.start_notify(uuid, callback=self.handle_data)] *)
Definition client_start_notify (uuid : string) : Sub unit :=
  fun s =>
    let r := notify_result (notify_calls s) in
    let c := session_client s in
    (mk_Session (session_self s)
       (mk_BleakClient (connected_after r) (disconnected_callback c)
          (connect_calls c) (disconnect_calls c) (write_calls c))
       (S (notify_calls s))
       (session_trace s ++ [StartNotify uuid]),
     match raised r with
     | Some e => Raise e
     | None => Ok tt
     end).

(** [reconnect_interval] of [subscribe]. *)
Definition subscribe_interval : Z := 3.

(** The text of the exception raised when the attempts run out. *)
Definition subscribe_failed_message (address : string) (max_retries : Z)
    : string :=
  ("Failed to subscribe to " ++ address ++ " on " ++ BEDJET_SUBSCRIPTION_UUID
     ++ " after " ++ Py.str max_retries ++ " attempts.")%string.

(** The [try] statement of the loop body, for loop variable [i]: the
    value is [is_subscribed] after it, [true] standing for the [break]. *)
Definition subscribe_attempt (i : Z) : Sub bool :=
  stry_except
    (sbind (client_start_notify BEDJET_SUBSCRIPTION_UUID)
       (fun _ => sret true))
    isinstance_Exception
    (fun error =>
       let backoff_seconds := (i + 1) * subscribe_interval in
       sbind (in_world (sleep backoff_seconds)) (fun _ => sret false)).

(** The [for] loop over [n] more passes; the value is [is_subscribed]
    when the loop is left. *)
Fixpoint subscribe_loop (n : nat) (i : Z) : Sub bool :=
  match n with
  | O => sret false
  | S n' =>
      sbind (subscribe_attempt i) (fun is_subscribed =>
        if is_subscribed then sret true
        else subscribe_loop n' (i + 1))
  end.

Definition subscribe (max_retries : Z) : Sub unit :=
  sbind (in_world is_connected) (fun c =>
  sbind (if negb c then in_world (connect bleak connect_default_max_retries)
         else sret tt) (fun _ =>
  sbind (subscribe_loop (Z.to_nat max_retries) 0) (fun is_subscribed =>
  if negb is_subscribed then
    sbind (in_world mac) (fun address =>
      sraise (Exception (subscribe_failed_message address max_retries)))
  else sret tt))).

Definition connect_and_subscribe (max_retries : Z) : Sub unit :=
  sbind (in_world (connect bleak max_retries)) (fun _ =>
  subscribe max_retries).

(** The default of the keyword argument [max_retries] of [subscribe]
    and [connect_and_subscribe]. *)
Definition subscribe_default_max_retries : Z := 10.

Definition update_data : Sub unit :=
  sbind (in_world is_connected) (fun c =>
  if negb c then connect_and_subscribe subscribe_default_max_retries
  else sret tt).

End Subscription.

(* ================================================================== *)
(** ** Scenarios of the subscription and measures on traces *)

(** The world a method of the world sees inside a session. *)
Definition world_of (s : Session) : World :=
  mk_World (session_self s) (session_client s) [].

(** The seconds spent in [asyncio.sleep] along a trace. *)
Fixpoint total_sleep (evs : list event) : Z :=
  match evs with
  | [] => 0
  | Sleep seconds :: evs' => seconds + total_sleep evs'
  | _ :: evs' => total_sleep evs'
  end.

(** The temperature decoded from the integer value [b] of a payload
    byte: the expression of [get_target_temperature]. *)
Definition decoded_temperature (b : Z) : result Z :=
  let! q := Py.truediv (b - 0x26) 9 in
  Py.round (Py.int_sub_float ((b - 0x26) + 66) q).

Section SubscriptionAttempts.

Variable notify_result : nat -> call_result.

(** The [k]-th [start_notify] raises something [except Exception]
    catches. *)
Definition notify_fails (k : nat) : Prop :=
  exists e, raised (notify_result k) = Some e /\
            isinstance_Exception e = true.

(** The [k]-th [start_notify] returns. *)
Definition notify_succeeds (k : nat) : Prop :=
  raised (notify_result k) = None.

(** The effects of [n] failed subscription passes, the first with loop
    variable [i]. *)
Fixpoint failed_subscriptions (uuid : string) (n : nat) (i : Z)
    : list sub_event :=
  match n with
  | O => []
  | S n' => StartNotify uuid :: Base (Sleep ((i + 1) * 3))
              :: failed_subscriptions uuid n' (i + 1)
  end.

End SubscriptionAttempts.

(** A notification channel that refuses the first two registrations. *)
Definition notify_third_time : nat -> call_result :=
  fun k => if (k <? 2)%nat then mk_call_result (Some BleakError) true
           else mk_call_result None true.

(** A notification channel that refuses every registration. *)
Definition notify_never : nat -> call_result :=
  fun _ => mk_call_result (Some BleakError) true.

Definition notify_uuid : string := "notify-characteristic".

(** The session of an entity that has connected on the first attempt. *)
Definition connected_session : Session :=
  mk_Session (self connected_entity) (_client connected_entity) 0 [].

(** A 15-byte notification with the discriminator of Memory1 and fan
    byte 21. *)
Definition notification_m1 : list byte :=
  [x00; x00; x00; x00; x00; x1e; x00; x30; x32; x00; x15; x00; x00; x00; x20].

(** What a set temperature reads back as: itself, except at four
    values of the supported range. *)
Definition read_back (t : Z) : Z :=
  if t =? 69 then 70
  else if (t =? 95) || (t =? 103) || (t =? 104) then t - 1
  else t.

Section Abort.

Variable bleak : Transport.

(** The world after [n] failed passes and one whose cleanup disconnect
    raised: the link flag is what that disconnect left. *)
Definition after_abort (w : World) (n : nat) (i : Z) : World :=
  mk_World (self w)
    (mk_BleakClient
       (connected_after
          (disconnect_result bleak (disconnect_calls (_client w) + n)))
       (disconnected_callback (_client w))
       (Datatypes.S (connect_calls (_client w) + n))
       (Datatypes.S (disconnect_calls (_client w) + n))
       (write_calls (_client w)))
    (trace w ++ failed_rounds n i ++ [Connect; Disconnect]).

End Abort.

(** Text made of ASCII characters only: every byte is below 128.  On
    such text [isnumeric] is Python's [str.isnumeric]. *)
Definition is_ascii_text (s : string) : bool :=
  forallb (fun c => (N_of_ascii c <? 128)%N) (list_ascii_of_string s).

(* ================================================================== *)
(** * Properties *)

(** ** Checking a decidable fact on every integer of an interval *)

Lemma result_Z_eqb_eq (a b : result Z) : result_Z_eqb a b = true -> a = b.
Proof.
  destruct a as [x|e], b as [y|e']; simpl; try discriminate.
  intro H. apply Z.eqb_eq in H. now subst.
Qed.

Lemma forallb_range (f : Z -> bool) (n : nat) :
  forall lo, forallb f (Py.range lo n) = true ->
  forall z, lo <= z < lo + Z.of_nat n -> f z = true.
Proof.
  induction n as [|n IH]; intros lo H z Hz.
  - simpl in Hz. lia.
  - simpl in H. apply andb_true_iff in H. destruct H as [H0 H1].
    destruct (Z.eq_dec z lo) as [->|Hne]; [exact H0|].
    apply (IH (lo + 1) H1). lia.
Qed.

(** ** Indexing a payload *)

Lemma getitem_in_range (value : list byte) (i : nat) :
  (i < List.length value)%nat ->
  exists v, Py.getitem value i = Ok v /\ 0 <= v < 256.
Proof.
  intro H. unfold Py.getitem.
  destruct (nth_error value i) as [b|] eqn:E.
  - exists (Z.of_N (Byte.to_N b)). split; [reflexivity|].
    pose proof (Byte.to_N_bounded b). lia.
  - apply nth_error_None in E. lia.
Qed.

Lemma getitem_out_of_range (value : list byte) (i : nat) :
  (List.length value <= i)%nat -> Py.getitem value i = Raise IndexError.
Proof.
  intro H. unfold Py.getitem.
  now rewrite (proj2 (nth_error_None value i) H).
Qed.

(** ** The float arithmetic of the codec, in integers *)

(** The decoded temperature for a byte [v]: the binary64 computation
    [round((v - 0x26 + 66) - (v - 0x26) / 9)] never fails on a byte and
    equals [66 + floor((16 (v - 0x26) + 9) / 18)]. *)
Lemma temperature_of_byte (v : Z) :
  0 <= v < 256 ->
  (let! q := Py.truediv (v - 0x26) 9 in
   Py.round (Py.int_sub_float ((v - 0x26) + 66) q))
  = Ok (66 + (16 * (v - 0x26) + 9) / 18).
Proof.
  intro H.
  apply result_Z_eqb_eq.
  apply (forallb_range
           (fun v => result_Z_eqb
              (let! q := Py.truediv (v - 0x26) 9 in
               Py.round (Py.int_sub_float ((v - 0x26) + 66) q))
              (Ok (66 + (16 * (v - 0x26) + 9) / 18)))
           256 0); [vm_compute; reflexivity | lia].
Qed.

(** [66 + floor((16 x + 9) / 18)] is the integer nearest to the exact
    value [(x + 66) - x / 9]; the distance is below one half, so no tie
    arises. *)
Lemma nearest_to_exact (x : Z) :
  2 * Z.abs (9 * (66 + (16 * x + 9) / 18) - (9 * (x + 66) - x)) < 9.
Proof.
  pose proof (Z.div_mod (16 * x + 9) 18 ltac:(lia)) as D.
  pose proof (Z.mod_pos_bound (16 * x + 9) 18 ltac:(lia)) as B.
  lia.
Qed.

(** The fan data byte on the guarded range: [round(p/5) - 1] in binary64
    is [floor((p + 2) / 5) - 1]. *)
Lemma fan_byte_in_range (p : Z) :
  0 <= p <= 100 -> fan_byte p = Ok ((p + 2) / 5 - 1).
Proof.
  intro H.
  apply result_Z_eqb_eq.
  apply (forallb_range
           (fun p => result_Z_eqb (fan_byte p) (Ok ((p + 2) / 5 - 1)))
           101 0); [vm_compute; reflexivity | lia].
Qed.

(** The temperature data byte: [int((temp - 60) / 9)] in binary64 is the
    quotient truncated toward zero. *)
Lemma temp_byte_in_range (t : Z) :
  -10000 <= t <= 10000 ->
  temp_byte t = Ok ((Z.quot (t - 60) 9 + (t - 66)) + 0x26).
Proof.
  intro H.
  apply result_Z_eqb_eq.
  apply (forallb_range
           (fun t => result_Z_eqb (temp_byte t)
                       (Ok ((Z.quot (t - 60) 9 + (t - 66)) + 0x26)))
           (Z.to_nat 20001) (-10000)).
  - vm_compute; reflexivity.
  - rewrite Z2Nat.id; lia.
Qed.

(* ================================================================== *)
(** ** Mode model *)

(** C1. The projection [PresetMode.to_hvac] evaluated on each of the
    nine presets: Off, Cool, Heat and Dry go to the mode of the same
    name, Turbo and ExtendedHeat go to Heat, and the three memory
    presets, which the dict literal does not list, give [None]. *)
Theorem to_hvac_table (p : PresetMode.t) :
  PresetMode.to_hvac p =
  match p with
  | PresetMode.off => Some HVACMode.off
  | PresetMode.cool => Some HVACMode.cool
  | PresetMode.heat => Some HVACMode.heat
  | PresetMode.dry => Some HVACMode.dry
  | PresetMode.turbo => Some HVACMode.heat
  | PresetMode.ext_ht => Some HVACMode.heat
  | PresetMode.m1 | PresetMode.m2 | PresetMode.m3 => None
  end.
Proof. destruct p; reflexivity. Qed.

(** C6, as stated, fails at 0: the guard [if not fan_pct] sends a
    percent of 0 to no level, not to Min. *)
Lemma get_fan_mode_zero_is_none :
  FanMode.get_fan_mode (Some 0) = None /\
  FanMode.get_fan_mode (Some 0) <> Some FanMode.min.
Proof. split; [reflexivity | discriminate]. Qed.

(** C6, amended. [get_fan_mode] gives no level for an absent percent,
    for 0 and for a percent above 100; every other percent resolves to
    the lowest-valued tier whose threshold is at least the percent.  In
    particular 10 gives Min, 11 Low, 50 Medium, 75 High, 100 Max and 101
    no level. *)
Theorem get_fan_mode_tiers :
  (forall fan_pct : option Z,
     match fan_pct with
     | None => FanMode.get_fan_mode fan_pct = None
     | Some p =>
         if (p =? 0) || (100 <? p)
         then FanMode.get_fan_mode fan_pct = None
         else exists m,
                FanMode.get_fan_mode fan_pct = Some m /\
                p <= FanMode.value m /\
                forall m', p <= FanMode.value m' ->
                           FanMode.value m <= FanMode.value m'
     end) /\
  FanMode.get_fan_mode (Some 10) = Some FanMode.min /\
  FanMode.get_fan_mode (Some 11) = Some FanMode.low /\
  FanMode.get_fan_mode (Some 50) = Some FanMode.medium /\
  FanMode.get_fan_mode (Some 75) = Some FanMode.high /\
  FanMode.get_fan_mode (Some 100) = Some FanMode.max /\
  FanMode.get_fan_mode (Some 101) = None.
Proof.
  split; [| repeat split; reflexivity].
  intros [p|]; [| reflexivity].
  unfold FanMode.get_fan_mode, FanMode.falsy.
  destruct (Z.eqb_spec p 0) as [->|Hnz]; [reflexivity|].
  destruct (Z.ltb_spec 100 p) as [Hbig|Hle]; simpl orb; cbv iota.
  - unfold FanMode.members, find, FanMode.value.
    repeat match goal with
           | |- context [?a <=? ?b] =>
               destruct (Z.leb_spec a b); [lia|]
           end.
    reflexivity.
  - unfold FanMode.members, find.
    repeat match goal with
           | |- context [p <=? FanMode.value ?m] =>
               destruct (Z.leb_spec p (FanMode.value m));
               [ exists m; split; [reflexivity|]; split; [assumption|];
                 intros m'; destruct m'; simpl in *; lia
               | ]
           end.
    simpl in *. lia.
Qed.

(* ================================================================== *)
(** ** Binary codec: decoding *)

(** C3, as stated, fails: for byte 7 = 43 the code decodes 70, while the
    formula with an integer division gives 71, whether the division
    floors or truncates. *)
Lemma current_temperature_is_not_integer_division :
  (15 <= List.length notification_off)%nat /\
  Py.getitem notification_off 7 = Ok 43 /\
  Decode.get_current_temperature notification_off = Ok 70 /\
  ((43 - 0x26) + 66) - (43 - 0x26) / 9 = 71 /\
  ((43 - 0x26) + 66) - Z.quot (43 - 0x26) 9 = 71 /\
  Decode.get_current_temperature notification_off
    <> Ok (((43 - 0x26) + 66) - (43 - 0x26) / 9).
Proof.
  split; [cbn; lia|].
  repeat split; try (vm_compute; reflexivity).
  vm_compute. discriminate.
Qed.

(** C3, amended. For a payload of at least 15 bytes the decoded current
    temperature is the integer nearest to the exact value
    [((payload[7] - 0x26) + 66) - (payload[7] - 0x26) / 9], the division
    being the true (not the integer) one; it equals
    [66 + floor((16 (payload[7] - 0x26) + 9) / 18)].  The target
    temperature is the same function of payload[8]. *)
Theorem temperature_decoding (value : list byte)
    (H : (15 <= List.length value)%nat) :
  exists c t rc rt,
    Py.getitem value 7 = Ok c /\
    Py.getitem value 8 = Ok t /\
    Decode.get_current_temperature value = Ok rc /\
    Decode.get_target_temperature value = Ok rt /\
    2 * Z.abs (9 * rc - (9 * ((c - 0x26) + 66) - (c - 0x26))) < 9 /\
    2 * Z.abs (9 * rt - (9 * ((t - 0x26) + 66) - (t - 0x26))) < 9 /\
    rc = 66 + (16 * (c - 0x26) + 9) / 18 /\
    rt = 66 + (16 * (t - 0x26) + 9) / 18.
Proof.
  destruct (getitem_in_range value 7 ltac:(lia)) as (c & Ec & Bc).
  destruct (getitem_in_range value 8 ltac:(lia)) as (t & Et & Bt).
  exists c, t, (66 + (16 * (c - 0x26) + 9) / 18),
    (66 + (16 * (t - 0x26) + 9) / 18).
  unfold Decode.get_current_temperature, Decode.get_target_temperature.
  rewrite Ec, Et. cbn [rbind].
  rewrite (temperature_of_byte c Bc), (temperature_of_byte t Bt).
  repeat split; try reflexivity.
  - apply (nearest_to_exact (c - 0x26)).
  - apply (nearest_to_exact (t - 0x26)).
Qed.

Lemma temperature_decoding_witness :
  exists c t rc rt,
    Py.getitem notification_off 7 = Ok c /\
    Py.getitem notification_off 8 = Ok t /\
    Decode.get_current_temperature notification_off = Ok rc /\
    Decode.get_target_temperature notification_off = Ok rt /\
    2 * Z.abs (9 * rc - (9 * ((c - 0x26) + 66) - (c - 0x26))) < 9 /\
    2 * Z.abs (9 * rt - (9 * ((t - 0x26) + 66) - (t - 0x26))) < 9 /\
    rc = 66 + (16 * (c - 0x26) + 9) / 18 /\
    rt = 66 + (16 * (t - 0x26) + 9) / 18.
Proof. apply (temperature_decoding notification_off). simpl. lia. Defined.

(** C4. For a payload of at least 15 bytes, [get_preset_mode] returns
    the entry of the discriminator table for (payload[13], payload[14]);
    where the table has no entry it returns no preset, and the decoding
    of the operating mode then raises instead of taking a default. *)
Theorem get_preset_mode_table (value : list byte)
    (H : (15 <= List.length value)%nat) :
  exists b13 b14,
    Py.getitem value 13 = Ok b13 /\
    Py.getitem value 14 = Ok b14 /\
    Decode.get_preset_mode value = Ok (preset_of_discriminators b13 b14) /\
    (preset_of_discriminators b13 b14 = None ->
     Decode.get_hvac_mode value = Raise AttributeError).
Proof.
  destruct (getitem_in_range value 13 ltac:(lia)) as (q & Eq & _).
  destruct (getitem_in_range value 14 ltac:(lia)) as (d & Ed & _).
  exists q, d. split; [exact Eq|]. split; [exact Ed|].
  assert (E : Decode.get_preset_mode value
              = Ok (preset_of_discriminators q d)).
  { unfold Decode.get_preset_mode, Decode.if_return, Decode.and_then,
      Decode.item_is, preset_of_discriminators.
    rewrite Eq, Ed. cbn [rbind].
    destruct (Z.eqb_spec d 0x50) as [->|N50].
    - cbn. destruct (q =? 20); [reflexivity|].
      destruct (q =? 45); reflexivity.
    - repeat match goal with
             | |- context [d =? ?c] => destruct (Z.eqb_spec d c); try reflexivity
             end. }
  split; [exact E|].
  intro HN. unfold Decode.get_hvac_mode. rewrite E, HN. reflexivity.
Qed.

Lemma get_preset_mode_table_witness :
  exists b13 b14,
    Py.getitem notification_off 13 = Ok b13 /\
    Py.getitem notification_off 14 = Ok b14 /\
    Decode.get_preset_mode notification_off
      = Ok (preset_of_discriminators b13 b14) /\
    (preset_of_discriminators b13 b14 = None ->
     Decode.get_hvac_mode notification_off = Raise AttributeError).
Proof. apply (get_preset_mode_table notification_off). simpl. lia. Defined.

(* ================================================================== *)
(** ** Notification handling *)

(** The five leading fields decode on every payload of 11 bytes or
    more. *)
Lemma leading_fields_decode (value : list byte) :
  (11 <= List.length value)%nat ->
  exists ct tg tm ts fp,
    Decode.get_current_temperature value = Ok ct /\
    Decode.get_target_temperature value = Ok tg /\
    Decode.get_time value = Ok tm /\
    Decode.get_timestring value = Ok ts /\
    Decode.get_fan_pct value = Ok fp.
Proof.
  intro H.
  destruct (getitem_in_range value 4 ltac:(lia)) as (h & Eh & _).
  destruct (getitem_in_range value 5 ltac:(lia)) as (m & Em & _).
  destruct (getitem_in_range value 6 ltac:(lia)) as (s & Es & _).
  destruct (getitem_in_range value 7 ltac:(lia)) as (c & Ec & Bc).
  destruct (getitem_in_range value 8 ltac:(lia)) as (t & Et & Bt).
  destruct (getitem_in_range value 10 ltac:(lia)) as (f & Ef & _).
  unfold Decode.get_current_temperature, Decode.get_target_temperature,
    Decode.get_time, Decode.get_timestring, Decode.get_fan_pct.
  rewrite Eh, Em, Es, Ec, Et, Ef. cbn [rbind].
  rewrite (temperature_of_byte c Bc), (temperature_of_byte t Bt).
  repeat eexists.
Qed.

(** A payload of fewer than 15 bytes has no discriminator byte 14. *)
Lemma get_hvac_mode_short (value : list byte) :
  (List.length value < 15)%nat ->
  Decode.get_hvac_mode value = Raise IndexError.
Proof.
  intro H.
  unfold Decode.get_hvac_mode, Decode.get_preset_mode, Decode.if_return,
    Decode.and_then, Decode.item_is.
  now rewrite (getitem_out_of_range value 14 ltac:(lia)).
Qed.

(** On 15 bytes or more the preset decoder returns, with or without a
    preset. *)
Lemma get_preset_mode_returns (value : list byte) :
  (15 <= List.length value)%nat ->
  exists p, Decode.get_preset_mode value = Ok p.
Proof.
  intro H.
  destruct (getitem_in_range value 13 ltac:(lia)) as (q & Eq & _).
  destruct (getitem_in_range value 14 ltac:(lia)) as (d & Ed & _).
  unfold Decode.get_preset_mode, Decode.if_return, Decode.and_then,
    Decode.item_is.
  rewrite Eq, Ed. cbn [rbind].
  repeat match goal with
         | |- context [if ?b then _ else _] => destruct b; cbn [rbind]
         end; eexists; reflexivity.
Qed.

(** Running [handle_data] once the results of its decoders are known:
    the decoders are replaced by their results, the rest evaluates. *)
Ltac run_handle_data :=
  unfold handle_data;
  repeat match goal with
         | E : Decode.get_current_temperature _ = _ |- _ => rewrite !E; clear E
         | E : Decode.get_target_temperature _ = _ |- _ => rewrite !E; clear E
         | E : Decode.get_time _ = _ |- _ => rewrite !E; clear E
         | E : Decode.get_timestring _ = _ |- _ => rewrite !E; clear E
         | E : Decode.get_fan_pct _ = _ |- _ => rewrite !E; clear E
         | E : Decode.get_hvac_mode _ = _ |- _ => rewrite !E; clear E
         | E : Decode.get_preset_mode _ = _ |- _ => rewrite !E; clear E
         end.

(** C2, as stated, fails: a 15-byte payload with unmatched
    discriminators makes [handle_data] raise after it has already
    replaced the temperatures, the time and the fan percent; the preset,
    the operating mode and last-seen keep the values of the earlier
    notification, so the stored status mixes two notifications. *)
Lemma handle_data_unmatched_is_partial :
  snd (handle_data 2000 notification_unmatched world_after_off)
    = Raise AttributeError /\
  _current_temperature (self world_after_off) = Some 70 /\
  _current_temperature
    (self (fst (handle_data 2000 notification_unmatched world_after_off)))
    = Some 66 /\
  _fan_pct
    (self (fst (handle_data 2000 notification_unmatched world_after_off)))
    = Some 10 /\
  _preset_mode
    (self (fst (handle_data 2000 notification_unmatched world_after_off)))
    = Some PresetMode.off /\
  _last_seen
    (self (fst (handle_data 2000 notification_unmatched world_after_off)))
    = Some 1000 /\
  self (fst (handle_data 2000 notification_unmatched world_after_off))
    <> self world_after_off.
Proof.
  repeat split; try (vm_compute; reflexivity).
  vm_compute. discriminate.
Qed.

(** C2, amended. [handle_data] stores the fields one after the other,
    in the order current temperature, target temperature, time,
    timestring, fan percent, operating mode, preset mode, last-seen.
    Every payload falls in one of four cases:
    - fewer than 8 bytes (a payload of length 5, say): [IndexError], and
      nothing of the world is changed;
    - 8 to 14 bytes: [IndexError] after the current temperature (at
      least) has been replaced; operating mode, preset mode and
      last-seen are untouched;
    - 15 bytes or more with unmatched discriminators: [AttributeError]
      after the five leading fields have been replaced from the payload;
      operating mode, preset mode and last-seen are untouched;
    - 15 bytes or more with a known preset: every field is replaced from
      this one payload, last-seen becomes the receipt time and the host
      is told once. *)
Theorem handle_data_cases (now : Z) (value : list byte) (w : World) :
  ((List.length value < 8)%nat /\
   handle_data now value w = (w, Raise IndexError))
  \/
  ((8 <= List.length value < 15)%nat /\
   snd (handle_data now value w) = Raise IndexError /\
   (exists ct,
      Decode.get_current_temperature value = Ok ct /\
      _current_temperature (self (fst (handle_data now value w))) = Some ct) /\
   _hvac_mode (self (fst (handle_data now value w))) = _hvac_mode (self w) /\
   _preset_mode (self (fst (handle_data now value w)))
     = _preset_mode (self w) /\
   _last_seen (self (fst (handle_data now value w))) = _last_seen (self w))
  \/
  ((15 <= List.length value)%nat /\
   Decode.get_preset_mode value = Ok None /\
   exists ct tg tm ts fp,
     Decode.get_current_temperature value = Ok ct /\
     Decode.get_target_temperature value = Ok tg /\
     Decode.get_time value = Ok tm /\
     Decode.get_timestring value = Ok ts /\
     Decode.get_fan_pct value = Ok fp /\
     handle_data now value w =
       (mk_World
          (mk_Entity (_mac (self w)) (Some ct) (Some tg)
             (_hvac_mode (self w)) (_preset_mode (self w))
             (Some tm) (Some ts) (Some fp) (_last_seen (self w)))
          (_client w) (trace w),
        Raise AttributeError))
  \/
  ((15 <= List.length value)%nat /\
   exists p ct tg tm ts fp,
     Decode.get_preset_mode value = Ok (Some p) /\
     Decode.get_current_temperature value = Ok ct /\
     Decode.get_target_temperature value = Ok tg /\
     Decode.get_time value = Ok tm /\
     Decode.get_timestring value = Ok ts /\
     Decode.get_fan_pct value = Ok fp /\
     handle_data now value w =
       (mk_World
          (mk_Entity (_mac (self w)) (Some ct) (Some tg)
             (PresetMode.to_hvac p) (Some p)
             (Some tm) (Some ts) (Some fp) (Some now))
          (_client w) (trace w ++ [ScheduleUpdateHaState]),
        Ok tt)).
Proof.
  destruct w as [e c tr].
  destruct (Nat.lt_ge_cases (List.length value) 8) as [H8|H8].
  { left. split; [exact H8|].
    assert (E : Decode.get_current_temperature value = Raise IndexError).
    { unfold Decode.get_current_temperature.
      now rewrite (getitem_out_of_range value 7 ltac:(lia)). }
    run_handle_data. reflexivity. }
  right.
  destruct (Nat.lt_ge_cases (List.length value) 15) as [H15|H15].
  { left. split; [lia|].
    pose proof (get_hvac_mode_short value H15) as Eh.
    destruct (getitem_in_range value 4 ltac:(lia)) as (h & E4 & _).
    destruct (getitem_in_range value 5 ltac:(lia)) as (m & E5 & _).
    destruct (getitem_in_range value 6 ltac:(lia)) as (s & E6 & _).
    destruct (getitem_in_range value 7 ltac:(lia)) as (v & E7 & B7).
    assert (Ect : Decode.get_current_temperature value
                  = Ok (66 + (16 * (v - 0x26) + 9) / 18)).
    { unfold Decode.get_current_temperature. rewrite E7. cbn [rbind].
      apply (temperature_of_byte v B7). }
    assert (Etm : Decode.get_time value = Ok ((h * 60 * 60) + (m * 60) + s)).
    { unfold Decode.get_time. rewrite E4, E5, E6. reflexivity. }
    assert (Ets : Decode.get_timestring value
                  = Ok (Py.str h ++ ":" ++ Py.str m ++ ":" ++ Py.str s)%string).
    { unfold Decode.get_timestring. rewrite E4, E5, E6. reflexivity. }
    clear E4 E5 E6 E7.
    destruct (Decode.get_target_temperature value) as [tg|x] eqn:Ett.
    - destruct (Decode.get_fan_pct value) as [fp|y] eqn:Efp.
      + split; [|split; [exists (66 + (16 * (v - 0x26) + 9) / 18);
                          split; [assumption|] |]];
          run_handle_data; repeat split; reflexivity.
      + assert (y = IndexError) as ->.
        { unfold Decode.get_fan_pct in Efp.
          destruct (Py.getitem value 10) as [f|z] eqn:E10;
            [discriminate|].
          unfold Py.getitem in E10.
          destruct (nth_error value 10); [discriminate|].
          cbn in Efp. congruence. }
        split; [|split; [exists (66 + (16 * (v - 0x26) + 9) / 18);
                         split; [assumption|] |]];
          run_handle_data; repeat split; reflexivity.
    - assert (x = IndexError) as ->.
      { unfold Decode.get_target_temperature in Ett.
        destruct (Py.getitem value 8) as [t|z] eqn:E8.
        - cbn [rbind] in Ett.
          destruct (getitem_in_range value 8) as (t' & E8' & B8).
          + destruct (Nat.lt_ge_cases 8 (List.length value)); [assumption|].
            rewrite (getitem_out_of_range value 8) in E8 by assumption.
            discriminate.
          + rewrite E8 in E8'. injection E8' as <-.
            rewrite (temperature_of_byte t B8) in Ett. discriminate.
        - unfold Py.getitem in E8.
          destruct (nth_error value 8); [discriminate|].
          cbn in Ett. congruence. }
      split; [|split; [exists (66 + (16 * (v - 0x26) + 9) / 18);
                       split; [assumption|] |]];
        run_handle_data; repeat split; reflexivity. }
  right.
  destruct (leading_fields_decode value ltac:(lia))
    as (ct & tg & tm & ts & fp & Ect & Ett & Etm & Ets & Efp).
  destruct (get_preset_mode_returns value H15) as ([p|] & Ep).
  - right. split; [exact H15|].
    exists p, ct, tg, tm, ts, fp.
    assert (Eh : Decode.get_hvac_mode value = Ok (PresetMode.to_hvac p)).
    { unfold Decode.get_hvac_mode. now rewrite Ep. }
    repeat (split; [assumption|]).
    run_handle_data. reflexivity.
  - left. split; [exact H15|]. split; [exact Ep|].
    exists ct, tg, tm, ts, fp.
    assert (Eh : Decode.get_hvac_mode value = Raise AttributeError).
    { unfold Decode.get_hvac_mode. now rewrite Ep. }
    repeat (split; [assumption|]).
    run_handle_data. reflexivity.
Qed.

(* ================================================================== *)
(** ** Connection manager *)

Section Connection.

Variable bleak : Transport.

Lemma connect_attempt_fails (i : Z) (w : World) :
  attempt_fails bleak (connect_calls (_client w)) (disconnect_calls (_client w)) ->
  connect_attempt bleak i w = (after_failures w 1 i, Ok tt).
Proof.
  intros [(e & He & Hc) [Hd Hr]].
  destruct w as [s [c cb nc nd nw] tr].
  unfold after_failures, connect_attempt, try_except, client_connect,
    client_disconnect, sleep, bind, emit, update_client, outcome, ret, raise.
  cbn in *. rewrite He, Hc. cbn.
  destruct (raised (disconnect_result bleak nd)) as [e'|].
  - rewrite Hr, Hd. cbn. rewrite <- !app_assoc, !Nat.add_1_r. reflexivity.
  - rewrite Hd. cbn. rewrite <- !app_assoc, !Nat.add_1_r. reflexivity.
Qed.

Lemma connect_attempt_succeeds (i : Z) (w : World) :
  attempt_succeeds bleak (connect_calls (_client w)) ->
  connect_attempt bleak i w =
    (mk_World (self w)
       (mk_BleakClient true (disconnected_callback (_client w))
          (S (connect_calls (_client w))) (disconnect_calls (_client w))
          (write_calls (_client w)))
       (trace w ++ [Connect]),
     Ok tt).
Proof.
  intros [Hr Hc].
  destruct w as [s [c cb nc nd nw] tr].
  unfold connect_attempt, try_except, client_connect, bind, emit,
    update_client, outcome, ret.
  cbn in *. rewrite Hr, Hc. reflexivity.
Qed.

Lemma after_failures_step (w : World) (n : nat) (i : Z) :
  after_failures (after_failures w 1 i) n (i + 1) = after_failures w (S n) i.
Proof.
  unfold after_failures.
  cbn [self _client trace client_is_connected disconnected_callback
       connect_calls disconnect_calls write_calls failed_rounds].
  rewrite <- !app_assoc. cbn [app].
  replace (connect_calls (_client w) + 1 + n)%nat
    with (connect_calls (_client w) + S n)%nat by lia.
  replace (disconnect_calls (_client w) + 1 + n)%nat
    with (disconnect_calls (_client w) + S n)%nat by lia.
  destruct n; reflexivity.
Qed.

(** If every one of the [n] passes fails, the loop runs to its end. *)
Lemma connect_loop_all_fail (n : nat) :
  forall (i : Z) (w : World),
    (forall j, (j < n)%nat ->
       attempt_fails bleak (connect_calls (_client w) + j)
                     (disconnect_calls (_client w) + j)) ->
    connect_loop bleak n i w = (after_failures w n i, Ok tt).
Proof.
  induction n as [|n IH]; intros i w H.
  - destruct w as [s [c cb nc nd nw] tr].
    unfold after_failures; cbn. rewrite app_nil_r, !Nat.add_0_r. reflexivity.
  - assert (H0 : attempt_fails bleak (connect_calls (_client w))
                               (disconnect_calls (_client w))).
    { specialize (H 0%nat ltac:(lia)). now rewrite !Nat.add_0_r in H. }
    cbn [connect_loop]. unfold bind at 1.
    rewrite (connect_attempt_fails i w H0).
    unfold bind at 1. unfold is_connected at 1.
    cbn [after_failures _client client_is_connected].
    rewrite IH.
    + now rewrite after_failures_step.
    + intros j Hj. cbn [after_failures _client connect_calls disconnect_calls].
      specialize (H (S j) ltac:(lia)).
      replace (connect_calls (_client w) + 1 + j)%nat
        with (connect_calls (_client w) + S j)%nat by lia.
      replace (disconnect_calls (_client w) + 1 + j)%nat
        with (disconnect_calls (_client w) + S j)%nat by lia.
      exact H.
Qed.

(** If the first [k] passes fail and the next one connects, the loop
    stops there, having installed the callback. *)
Lemma connect_loop_succeeds_after (k : nat) :
  forall (n : nat) (i : Z) (w : World),
    (k < n)%nat ->
    (forall j, (j < k)%nat ->
       attempt_fails bleak (connect_calls (_client w) + j)
                     (disconnect_calls (_client w) + j)) ->
    attempt_succeeds bleak (connect_calls (_client w) + k) ->
    connect_loop bleak n i w = (after_success w k i, Ok tt).
Proof.
  induction k as [|k IH]; intros n i w Hn Hf Hs.
  - destruct n as [|n]; [lia|].
    rewrite Nat.add_0_r in Hs.
    cbn [connect_loop]. unfold bind at 1.
    rewrite (connect_attempt_succeeds i w Hs).
    destruct w as [s [c cb nc nd nw] tr].
    unfold after_success, set_disconnected_callback, is_connected, bind,
      update_client, emit.
    cbn. rewrite <- !app_assoc, !Nat.add_0_r. reflexivity.
  - destruct n as [|n]; [lia|].
    assert (H0 : attempt_fails bleak (connect_calls (_client w))
                               (disconnect_calls (_client w))).
    { specialize (Hf 0%nat ltac:(lia)). now rewrite !Nat.add_0_r in Hf. }
    cbn [connect_loop]. unfold bind at 1.
    rewrite (connect_attempt_fails i w H0).
    unfold bind at 1. unfold is_connected at 1.
    cbn [after_failures _client client_is_connected].
    rewrite (IH n (i + 1)).
    + f_equal. unfold after_success, after_failures.
      cbn [self _client trace client_is_connected disconnected_callback
           connect_calls disconnect_calls write_calls failed_rounds].
      rewrite <- !app_assoc. cbn [app].
      replace (connect_calls (_client w) + 1 + k)%nat
        with (connect_calls (_client w) + S k)%nat by lia.
      replace (disconnect_calls (_client w) + 1 + k)%nat
        with (disconnect_calls (_client w) + S k)%nat by lia.
      reflexivity.
    + lia.
    + intros j Hj. cbn [after_failures _client connect_calls disconnect_calls].
      specialize (Hf (S j) ltac:(lia)).
      replace (connect_calls (_client w) + 1 + j)%nat
        with (connect_calls (_client w) + S j)%nat by lia.
      replace (disconnect_calls (_client w) + 1 + j)%nat
        with (disconnect_calls (_client w) + S j)%nat by lia.
      exact Hf.
    + cbn [after_failures _client connect_calls].
      replace (connect_calls (_client w) + 1 + k)%nat
        with (connect_calls (_client w) + S k)%nat by lia.
      exact Hs.
Qed.

(** The [k]-th failed round (from 0) is a connect, a disconnect and a
    wait of [(i + k + 1) * 10] seconds. *)
Lemma failed_rounds_nth (n : nat) :
  forall (i : Z) (k : nat),
    (k < n)%nat ->
    nth_error (failed_rounds n i) (3 * k) = Some Connect /\
    nth_error (failed_rounds n i) (3 * k + 1) = Some Disconnect /\
    nth_error (failed_rounds n i) (3 * k + 2)
      = Some (Sleep ((i + Z.of_nat k + 1) * 10)).
Proof.
  induction n as [|n IH]; intros i k Hk; [lia|].
  destruct k as [|k].
  - cbn. rewrite Z.add_0_r. repeat split; reflexivity.
  - replace (3 * S k)%nat with (S (S (S (3 * k)))) by lia.
    cbn [failed_rounds nth_error Nat.add].
    destruct (IH (i + 1) k ltac:(lia)) as (A & B & C).
    repeat split; [exact A | exact B |].
    rewrite C. do 2 f_equal. lia.
Qed.

Lemma failed_rounds_length (n : nat) (i : Z) :
  List.length (failed_rounds n i) = (3 * n)%nat.
Proof.
  revert i. induction n as [|n IH]; intro i; [reflexivity|].
  cbn [failed_rounds List.length]. rewrite IH. lia.
Qed.

End Connection.

(** C7, as stated, fails: an error of the cleanup disconnect is caught
    only when it is a [BleakError].  Against a stack whose connect always
    fails and whose disconnect times out, [connect(3)] ends after one
    attempt, without any wait, with the timeout and not with the
    connection failure. *)
Lemma connect_aborts_on_disconnect_timeout :
  (forall k, raised (connect_result transport_disconnect_times_out k)
             = Some BleakError) /\
  (forall k, raised (disconnect_result transport_disconnect_times_out k)
             = Some TimeoutError) /\
  snd (connect transport_disconnect_times_out 3 fresh_entity)
    = Raise TimeoutError /\
  trace (fst (connect transport_disconnect_times_out 3 fresh_entity))
    = [Connect; Disconnect].
Proof. repeat split; vm_compute; reflexivity. Qed.

Section ConnectionAbort.

Variable bleak : Transport.

(** A pass whose cleanup disconnect raises something that is not a
    [BleakError]: the exception leaves the [try] statement, and no wait
    is made. *)
Lemma connect_attempt_aborts (i : Z) (w : World) (e e' : exn) :
  raised (connect_result bleak (connect_calls (_client w))) = Some e ->
  isinstance_Exception e = true ->
  raised (disconnect_result bleak (disconnect_calls (_client w))) = Some e' ->
  isinstance_BleakError e' = false ->
  connect_attempt bleak i w = (after_abort bleak w 0 i, Raise e').
Proof.
  intros He Hc He' Hb.
  destruct w as [s [c cb nc nd nw] tr].
  unfold after_abort, connect_attempt, try_except, client_connect,
    client_disconnect, sleep, bind, emit, update_client, outcome, ret, raise.
  cbn in *. rewrite He, Hc. cbn. rewrite He'. cbn. rewrite Hb.
  rewrite <- !app_assoc, !Nat.add_0_r. reflexivity.
Qed.

(** If the first [k] passes fail and the cleanup disconnect of the next
    one raises something that is not a [BleakError], the loop is left
    there with that exception. *)
Lemma connect_loop_aborts_after (k : nat) :
  forall (n : nat) (i : Z) (w : World) (e e' : exn),
    (k < n)%nat ->
    (forall j, (j < k)%nat ->
       attempt_fails bleak (connect_calls (_client w) + j)
                           (disconnect_calls (_client w) + j)) ->
    raised (connect_result bleak (connect_calls (_client w) + k)) = Some e ->
    isinstance_Exception e = true ->
    raised (disconnect_result bleak (disconnect_calls (_client w) + k))
      = Some e' ->
    isinstance_BleakError e' = false ->
    connect_loop bleak n i w = (after_abort bleak w k i, Raise e').
Proof.
  induction k as [|k IH]; intros n i w e e' Hn Hf He Hc He' Hb.
  - destruct n as [|n]; [lia|].
    rewrite Nat.add_0_r in He, He'.
    cbn [connect_loop]. unfold bind at 1.
    now rewrite (connect_attempt_aborts i w e e' He Hc He' Hb).
  - destruct n as [|n]; [lia|].
    assert (H0 : attempt_fails bleak (connect_calls (_client w))
                               (disconnect_calls (_client w))).
    { specialize (Hf 0%nat ltac:(lia)). now rewrite !Nat.add_0_r in Hf. }
    cbn [connect_loop]. unfold bind at 1.
    rewrite (connect_attempt_fails bleak i w H0).
    unfold bind at 1. unfold is_connected at 1.
    cbn [after_failures _client client_is_connected].
    rewrite (IH n (i + 1) _ e e').
    + f_equal. unfold after_abort, after_failures.
      cbn [self _client trace client_is_connected disconnected_callback
           connect_calls disconnect_calls write_calls failed_rounds].
      rewrite <- !app_assoc. cbn [app].
      replace (connect_calls (_client w) + 1 + k)%nat
        with (connect_calls (_client w) + Datatypes.S k)%nat by lia.
      replace (disconnect_calls (_client w) + 1 + k)%nat
        with (disconnect_calls (_client w) + Datatypes.S k)%nat by lia.
      reflexivity.
    + lia.
    + intros j Hj. cbn [after_failures _client connect_calls disconnect_calls].
      specialize (Hf (Datatypes.S j) ltac:(lia)).
      replace (connect_calls (_client w) + 1 + j)%nat
        with (connect_calls (_client w) + Datatypes.S j)%nat by lia.
      replace (disconnect_calls (_client w) + 1 + j)%nat
        with (disconnect_calls (_client w) + Datatypes.S j)%nat by lia.
      exact Hf.
    + cbn [after_failures _client connect_calls].
      replace (connect_calls (_client w) + 1 + k)%nat
        with (connect_calls (_client w) + Datatypes.S k)%nat by lia.
      exact He.
    + exact Hc.
    + cbn [after_failures _client disconnect_calls].
      replace (disconnect_calls (_client w) + 1 + k)%nat
        with (disconnect_calls (_client w) + Datatypes.S k)%nat by lia.
      exact He'.
    + exact Hb.
Qed.

(** An exception that leaves the loop leaves [connect]. *)
Lemma connect_of_loop_raise (max_retries : Z) (w w' : World) (e : exn) :
  connect_loop bleak (Z.to_nat max_retries) 0 w = (w', Raise e) ->
  connect bleak max_retries w = (w', Raise e).
Proof. intro H. unfold connect, bind at 1. now rewrite H. Qed.

End ConnectionAbort.

(** C7, amended.  [max_retries] defaults to 10.  Take a session whose
    link is down and a stack on which the first [n] attempts fail: the
    connect raises, and the cleanup disconnect leaves the link down and
    raises nothing or a [BleakError], which is swallowed.  Then
    - each failed attempt is followed by a disconnect and a wait, the wait
      after the k-th attempt (counted from 1) being k * 10 seconds;
    - if [n] is the whole budget ([max_retries] attempts, each made
      once), [connect] then raises the exception whose text carries the
      address and [max_retries];
    - if attempt [n + 1] is within the budget and connects, [connect]
      returns there, with the disconnect callback installed as its last
      effect;
    - if attempt [n + 1] is within the budget, its connect raises and
      its cleanup disconnect raises anything that is not a [BleakError],
      that exception leaves [connect] at once: no wait follows, no
      further attempt is made, and the connection failure is not
      raised; [BleakError] is the only exception that counts as one
      (an [asyncio.TimeoutError], for instance, does not). *)
Theorem connect_retry_policy (bleak : Transport) (w : World)
    (max_retries : Z) (n : nat)
    (Hdown : client_is_connected (_client w) = false)
    (Hfail : forall j, (j < n)%nat ->
       attempt_fails bleak (connect_calls (_client w) + j)
                           (disconnect_calls (_client w) + j)) :
  connect_default_max_retries = 10 /\
  (forall k, (k < n)%nat ->
     nth_error (failed_rounds n 0) (3 * k) = Some Connect /\
     nth_error (failed_rounds n 0) (3 * k + 1) = Some Disconnect /\
     nth_error (failed_rounds n 0) (3 * k + 2)
       = Some (Sleep ((Z.of_nat k + 1) * 10))) /\
  List.length (failed_rounds n 0) = (3 * n)%nat /\
  (n = Z.to_nat max_retries ->
   connect bleak max_retries w =
     (after_failures w n 0,
      Raise (Exception
               (connect_failed_message (_mac (self w)) max_retries)))) /\
  ((n < Z.to_nat max_retries)%nat ->
   attempt_succeeds bleak (connect_calls (_client w) + n) ->
   connect bleak max_retries w = (after_success w n 0, Ok tt)) /\
  (forall e e' : exn,
   (n < Z.to_nat max_retries)%nat ->
   raised (connect_result bleak (connect_calls (_client w) + n)) = Some e ->
   isinstance_Exception e = true ->
   raised (disconnect_result bleak (disconnect_calls (_client w) + n))
     = Some e' ->
   isinstance_BleakError e' = false ->
   connect bleak max_retries w = (after_abort bleak w n 0, Raise e') /\
   trace (fst (connect bleak max_retries w))
     = trace w ++ failed_rounds n 0 ++ [Connect; Disconnect]) /\
  (forall e' : exn, isinstance_BleakError e' = true <-> e' = BleakError).
Proof.
  split; [reflexivity|].
  split; [intros k Hk; apply (failed_rounds_nth n 0 k Hk)|].
  split; [apply failed_rounds_length|].
  split; [|split; [|split]].
  - intros ->. unfold connect, bind at 1.
    rewrite (connect_loop_all_fail bleak _ 0 w Hfail).
    unfold bind, is_connected, mac, raise.
    cbn [after_failures _client client_is_connected self _mac].
    destruct (Z.to_nat max_retries); [rewrite Hdown|]; reflexivity.
  - intros Hn Hs. unfold connect, bind at 1.
    rewrite (connect_loop_succeeds_after bleak n _ 0 w Hn Hfail Hs).
    reflexivity.
  - intros e e' Hn He Hc He' Hb.
    assert (E : connect bleak max_retries w
                = (after_abort bleak w n 0, Raise e')).
    { apply connect_of_loop_raise.
      exact (connect_loop_aborts_after bleak n _ 0 w e e' Hn Hfail
               He Hc He' Hb). }
    split; [exact E|]. rewrite E. reflexivity.
  - intro e'. destruct e'; cbn; split; intro H;
      first [reflexivity | discriminate H].
Qed.

(** Against a stack that always fails, [connect(3)] makes exactly three
    attempts, waits 10, 20 and 30 seconds, and raises. *)
Lemma connect_retry_policy_witness :
  connect transport_down 3 fresh_entity =
    (after_failures fresh_entity 3 0,
     Raise (Exception
              (connect_failed_message (_mac (self fresh_entity)) 3))).
Proof.
  refine (proj1 (proj2 (proj2 (proj2
    (connect_retry_policy transport_down fresh_entity 3 3 _ _)))) _).
  - reflexivity.
  - intros j _. split; [exists BleakError; split; reflexivity|].
    split; [reflexivity | exact I].
  - reflexivity.
Defined.

Example connect_three_attempts_trace :
  trace (fst (connect transport_down 3 fresh_entity))
    = [Connect; Disconnect; Sleep 10;
       Connect; Disconnect; Sleep 20;
       Connect; Disconnect; Sleep 30] /\
  snd (connect transport_down 3 fresh_entity)
    = Raise (Exception
               "Failed to connect to C0:FF:EE:00:00:01 after 3 attempts.").
Proof. split; vm_compute; reflexivity. Qed.

(* ------------------------------------------------------------------ *)
(** *** Registration of the disconnect callback *)

Lemma callback_free_app (a b : list event) :
  callback_free a -> callback_free b -> callback_free (a ++ b).
Proof. intros Ha Hb. apply Forall_app. now split. Qed.

(** One [try] statement of the loop never touches the callback. *)
Lemma connect_attempt_effects (bleak : Transport) (i : Z) (w : World) :
  exists evs,
    trace (fst (connect_attempt bleak i w)) = trace w ++ evs /\
    callback_free evs /\
    disconnected_callback (_client (fst (connect_attempt bleak i w)))
      = disconnected_callback (_client w).
Proof.
  destruct w as [s [c cb nc nd nw] tr].
  unfold connect_attempt, try_except, client_connect, client_disconnect,
    sleep, bind, emit, update_client, outcome, ret, raise.
  cbn.
  destruct (raised (connect_result bleak nc)) as [e|]; cbn;
    [destruct (isinstance_Exception e); cbn;
     [destruct (raised (disconnect_result bleak nd)) as [e'|]; cbn;
      [destruct (isinstance_BleakError e'); cbn |] |] |];
    rewrite <- ?app_assoc;
    (eexists; split; [reflexivity | split; [repeat constructor | reflexivity]]).
Qed.

(** One pass of the loop, by the outcome of its [try] statement. *)
Lemma connect_loop_S (bleak : Transport) (n : nat) (i : Z) (w : World) :
  connect_loop bleak (S n) i w =
  match connect_attempt bleak i w with
  | (w1, Ok _) =>
      if client_is_connected (_client w1)
      then set_disconnected_callback (Some on_disconnect_cb) w1
      else connect_loop bleak n (i + 1) w1
  | (w1, Raise e) => (w1, Raise e)
  end.
Proof.
  cbn [connect_loop]. unfold bind at 1.
  destruct (connect_attempt bleak i w) as [w1 [[]|e]]; [|reflexivity].
  unfold bind, is_connected.
  destruct (client_is_connected (_client w1)); reflexivity.
Qed.

(** The loop either leaves the callback alone, or ends by installing it
    on a link that is up. *)
Lemma connect_loop_effects (bleak : Transport) (n : nat) :
  forall (i : Z) (w : World),
    exists evs,
      trace (fst (connect_loop bleak n i w)) = trace w ++ evs /\
      ((callback_free evs /\
        disconnected_callback (_client (fst (connect_loop bleak n i w)))
          = disconnected_callback (_client w))
       \/
       (snd (connect_loop bleak n i w) = Ok tt /\
        client_is_connected (_client (fst (connect_loop bleak n i w))) = true /\
        disconnected_callback (_client (fst (connect_loop bleak n i w)))
          = Some on_disconnect_cb /\
        exists evs0,
          evs = evs0 ++ [SetDisconnectedCallback (Some on_disconnect_cb)] /\
          callback_free evs0)).
Proof.
  induction n as [|n IH]; intros i w.
  - exists []. cbn. rewrite app_nil_r. split; [reflexivity|].
    left. split; [constructor | reflexivity].
  - destruct (connect_attempt_effects bleak i w) as (evs1 & T1 & F1 & C1).
    rewrite connect_loop_S.
    destruct (connect_attempt bleak i w) as [w1 [[]|e]] eqn:E1;
      cbn [fst snd] in *.
    + destruct (client_is_connected (_client w1)) eqn:Ec.
      * exists (evs1 ++ [SetDisconnectedCallback (Some on_disconnect_cb)]).
        unfold set_disconnected_callback, bind, update_client, emit.
        cbn. rewrite T1, <- app_assoc. split; [reflexivity|].
        right. repeat (split; [first [assumption | reflexivity] |]).
        exists evs1. split; [reflexivity | assumption].
      * destruct (IH (i + 1) w1) as (evs2 & T2 & [[F2 C2] | (R2 & K2 & C2 & evs0 & E2 & F0)]).
        -- exists (evs1 ++ evs2). rewrite T2, T1, <- app_assoc.
           split; [reflexivity|]. left.
           split; [now apply callback_free_app | congruence].
        -- exists (evs1 ++ evs2). rewrite T2, T1, <- app_assoc.
           split; [reflexivity|]. right.
           repeat (split; [assumption|]).
           exists (evs1 ++ evs0). rewrite E2, <- app_assoc.
           split; [reflexivity | now apply callback_free_app].
    + exists evs1. split; [exact T1|]. left. split; assumption.
Qed.

(** [connect], by the outcome of its loop. *)
Lemma connect_unfold (bleak : Transport) (max_retries : Z) (w : World) :
  connect bleak max_retries w =
  match connect_loop bleak (Z.to_nat max_retries) 0 w with
  | (w1, Ok _) =>
      if client_is_connected (_client w1) then (w1, Ok tt)
      else (w1, Raise (Exception
                         (connect_failed_message (_mac (self w1)) max_retries)))
  | (w1, Raise e) => (w1, Raise e)
  end.
Proof.
  unfold connect, bind at 1.
  destruct (connect_loop bleak (Z.to_nat max_retries) 0 w) as [w1 [[]|e]];
    [|reflexivity].
  unfold bind, is_connected, mac, raise, ret.
  destruct (client_is_connected (_client w1)); reflexivity.
Qed.

(** C8, as stated, fails: the constructor hands the callback to the
    client, so a session that has never connected already has it
    registered. *)
Lemma callback_registered_at_construction :
  client_is_connected (_client fresh_entity) = false /\
  connect_calls (_client fresh_entity) = 0%nat /\
  trace fresh_entity = [] /\
  disconnected_callback (_client fresh_entity) = Some on_disconnect_cb.
Proof. repeat split; reflexivity. Qed.

(** C8, amended.  The disconnect callback is registered on the client
    from construction on, before any connect.  [connect] itself
    registers it only upon success: a call of [connect] either leaves
    the registration as it found it and emits no
    [set_disconnected_callback], or it returns normally with the
    transport reporting connected, and the registration is its last
    effect. *)
Theorem callback_registration (bleak : Transport) (max_retries : Z)
    (w : World) :
  (forall address,
     disconnected_callback (_client (__init__ address))
       = Some on_disconnect_cb /\
     client_is_connected (_client (__init__ address)) = false) /\
  exists evs,
    trace (fst (connect bleak max_retries w)) = trace w ++ evs /\
    ((callback_free evs /\
      disconnected_callback (_client (fst (connect bleak max_retries w)))
        = disconnected_callback (_client w))
     \/
     (snd (connect bleak max_retries w) = Ok tt /\
      client_is_connected (_client (fst (connect bleak max_retries w)))
        = true /\
      disconnected_callback (_client (fst (connect bleak max_retries w)))
        = Some on_disconnect_cb /\
      exists evs0,
        evs = evs0 ++ [SetDisconnectedCallback (Some on_disconnect_cb)] /\
        callback_free evs0)).
Proof.
  split; [intro address; split; reflexivity|].
  destruct (connect_loop_effects bleak (Z.to_nat max_retries) 0 w)
    as (evs & T & D).
  exists evs. rewrite connect_unfold.
  destruct (connect_loop bleak (Z.to_nat max_retries) 0 w) as [w1 [[]|e]];
    cbn [fst snd] in *.
  - destruct (client_is_connected (_client w1)) eqn:Ec; cbn [fst snd].
    + split; [exact T | rewrite Ec; exact D].
    + split; [exact T|]. left.
      destruct D as [D | (_ & K & _)]; [exact D | congruence].
  - split; [exact T|]. left.
    destruct D as [D | (R & _)]; [exact D | discriminate].
Qed.

(* ================================================================== *)
(** ** Commands *)

Section Commands.

Variable bleak : Transport.
Variable BEDJET_COMMANDS : string -> option Z.
Variable BEDJET_COMMAND_UUID : string.

Lemma send_command_disconnected (command : list (option Z)) (w : World) :
  client_is_connected (_client w) = false ->
  send_command bleak BEDJET_COMMAND_UUID command w = (w, Ok tt).
Proof.
  intro H. unfold send_command, bind, is_connected. now rewrite H.
Qed.

Lemma send_command_connected (command : list (option Z)) (w : World) :
  client_is_connected (_client w) = true ->
  trace (fst (send_command bleak BEDJET_COMMAND_UUID command w))
    = trace w ++ [WriteGattChar BEDJET_COMMAND_UUID command].
Proof.
  intro H. unfold send_command, bind, is_connected. rewrite H.
  unfold client_write_gatt_char, bind, emit, update_client, outcome, ret,
    raise.
  cbn. destruct (raised (write_result bleak (write_calls (_client w))));
    reflexivity.
Qed.

(** Each entry point, once its argument is resolved, is one
    [send_command]. *)
Lemma async_set_temperature_sends (t b : Z) (w : World) :
  temp_byte t = Ok b ->
  async_set_temperature bleak BEDJET_COMMAND_UUID (Some t) w
    = send_command bleak BEDJET_COMMAND_UUID [Some 0x03; Some b] w.
Proof.
  intro H. unfold async_set_temperature, bind, lift. now rewrite H.
Qed.

Lemma async_set_fan_mode_sends (fan_mode : fan_arg) (p b : Z) (w : World) :
  resolve_fan_pct fan_mode = Ok p -> 0 <= p <= 100 -> fan_byte p = Ok b ->
  async_set_fan_mode bleak BEDJET_COMMAND_UUID fan_mode w
    = send_command bleak BEDJET_COMMAND_UUID [Some 0x07; Some b] w.
Proof.
  intros Hr Hp Hb. unfold async_set_fan_mode, bind at 1, lift at 1.
  rewrite Hr.
  replace (p >=? 0) with true by (symmetry; apply Z.geb_le; lia).
  replace (p <=? 100) with true by (symmetry; apply Z.leb_le; lia).
  cbn [andb negb]. unfold bind, lift. now rewrite Hb.
Qed.

Lemma async_set_fan_mode_skips (fan_mode : fan_arg) (p : Z) (w : World) :
  resolve_fan_pct fan_mode = Ok p -> ~ (0 <= p <= 100) ->
  async_set_fan_mode bleak BEDJET_COMMAND_UUID fan_mode w = (w, Ok tt).
Proof.
  intros Hr Hp. unfold async_set_fan_mode, bind at 1, lift at 1.
  rewrite Hr.
  destruct (Z.geb_spec p 0), (Z.leb_spec p 100); try reflexivity. lia.
Qed.

Lemma async_set_preset_mode_sends (preset_mode : string) (m : PresetMode.t)
    (w : World) :
  PresetMode.of_value preset_mode = Ok m ->
  async_set_preset_mode bleak BEDJET_COMMANDS BEDJET_COMMAND_UUID preset_mode w
    = send_command bleak BEDJET_COMMAND_UUID
        [Some 0x01; BEDJET_COMMANDS (PresetMode.value m)] w.
Proof.
  intro H. unfold async_set_preset_mode, bind, lift. now rewrite H.
Qed.

Lemma async_set_hvac_mode_sends (hvac_mode : string) (m : HVACMode.t)
    (w : World) :
  HVACMode.of_value hvac_mode = Ok m ->
  async_set_hvac_mode bleak BEDJET_COMMANDS BEDJET_COMMAND_UUID hvac_mode w
    = bind (send_command bleak BEDJET_COMMAND_UUID
              [Some 0x01; BEDJET_COMMANDS (HVACMode.value m)])
           (fun _ => send_command bleak BEDJET_COMMAND_UUID
                       [Some 0x02; Some 10; Some 0]) w.
Proof.
  intro H. unfold async_set_hvac_mode, bind at 1, lift. now rewrite H.
Qed.

Lemma PresetMode_of_value_value (m : PresetMode.t) :
  PresetMode.of_value (PresetMode.value m) = Ok m.
Proof. destruct m; reflexivity. Qed.

(** For a numerator at or above 0 truncation and flooring agree. *)
Lemma quot_is_div (t : Z) : 60 <= t -> Z.quot (t - 60) 9 = (t - 60) / 9.
Proof. intro H. apply Z.quot_div_nonneg; lia. Qed.

End Commands.

(** C5.  On a connected session the command entry points write exactly
    these byte sequences, which depend on the argument alone:
    [set_mode(mode)] writes [0x01, mode], the mode byte of a preset being
    its entry in the command table; [set_time(minutes)] writes
    [0x02, minutes div 60, minutes mod 60], whatever the minutes;
    setting the temperature writes
    [0x03, quot(temp - 60, 9) + (temp - 66) + 0x26], the quotient being
    the floor for temp >= 60 (for 72 the byte is
    0x26 + (72 - 66) + floor((72 - 60) / 9)); setting a fan percent of 0
    to 100 writes [0x07, r - 1] with r the integer nearest to
    percent / 5. *)
Theorem command_encoding (bleak : Transport)
    (BEDJET_COMMANDS : string -> option Z) (uuid : string) (w : World)
    (Hup : client_is_connected (_client w) = true) :
  (forall mode,
     trace (fst (set_mode bleak uuid mode w))
       = trace w ++ [WriteGattChar uuid [Some 0x01; mode]]) /\
  (forall m,
     trace (fst (async_set_preset_mode bleak BEDJET_COMMANDS uuid
                   (PresetMode.value m) w))
       = trace w ++ [WriteGattChar uuid
                       [Some 0x01; BEDJET_COMMANDS (PresetMode.value m)]]) /\
  (forall minutes,
     trace (fst (set_time bleak uuid minutes w))
       = trace w ++ [WriteGattChar uuid
                       [Some 0x02; Some (minutes / 60);
                        Some (minutes mod 60)]]) /\
  (forall temp, -10000 <= temp <= 10000 ->
     trace (fst (async_set_temperature bleak uuid (Some temp) w))
       = trace w ++ [WriteGattChar uuid
                       [Some 0x03;
                        Some ((Z.quot (temp - 60) 9 + (temp - 66)) + 0x26)]]
     /\ (60 <= temp -> Z.quot (temp - 60) 9 = (temp - 60) / 9)) /\
  temp_byte 72 = Ok (0x26 + (72 - 66) + (72 - 60) / 9) /\
  (forall percent, 0 <= percent <= 100 ->
     exists r,
       2 * Z.abs (5 * r - percent) < 5 /\
       trace (fst (async_set_fan_mode bleak uuid (FanInt percent) w))
         = trace w ++ [WriteGattChar uuid [Some 0x07; Some (r - 1)]]).
Proof.
  split; [intro mode; apply send_command_connected; exact Hup|].
  split.
  { intro m.
    rewrite (async_set_preset_mode_sends bleak BEDJET_COMMANDS uuid _ m w
               (PresetMode_of_value_value m)).
    apply send_command_connected; exact Hup. }
  split; [intro minutes; apply send_command_connected; exact Hup|].
  split.
  { intros temp Ht. split; [|apply quot_is_div].
    rewrite (async_set_temperature_sends bleak uuid temp _ w
               (temp_byte_in_range temp Ht)).
    apply send_command_connected; exact Hup. }
  split; [vm_compute; reflexivity|].
  intros percent Hp. exists ((percent + 2) / 5).
  split.
  - pose proof (Z.div_mod (percent + 2) 5 ltac:(lia)).
    pose proof (Z.mod_pos_bound (percent + 2) 5 ltac:(lia)). lia.
  - assert (Hr : resolve_fan_pct (FanInt percent) = Ok percent).
    { unfold resolve_fan_pct.
      destruct (Z.leb_spec 0 percent); [reflexivity | lia]. }
    rewrite (async_set_fan_mode_sends bleak uuid _ percent _ w Hr Hp
               (fan_byte_in_range percent Hp)).
    apply send_command_connected; exact Hup.
Qed.

Lemma command_encoding_witness :
  trace (fst (set_time transport_up command_uuid 600 connected_entity))
    = trace connected_entity
        ++ [WriteGattChar command_uuid
              [Some 0x02; Some (600 / 60); Some (600 mod 60)]].
Proof.
  refine (proj1 (proj2 (proj2
    (command_encoding transport_up (fun _ => None) command_uuid
       connected_entity _))) 600).
  reflexivity.
Defined.

(** C9.  On a session that is not connected every command operation is
    skipped without a trace: [send_command] returns normally, nothing is
    written or queued, and the world is the one before the call.  This
    holds for the raw commands and for each entry point (operating mode,
    preset mode, fan, temperature, timer) whose argument resolves to a
    command; and whatever the argument, the world is left unchanged. *)
Theorem commands_skipped_when_disconnected (bleak : Transport)
    (BEDJET_COMMANDS : string -> option Z) (uuid : string) (w : World)
    (Hdown : client_is_connected (_client w) = false) :
  (forall command, send_command bleak uuid command w = (w, Ok tt)) /\
  (forall mode, set_mode bleak uuid mode w = (w, Ok tt)) /\
  (forall minutes, set_time bleak uuid minutes w = (w, Ok tt)) /\
  (forall hvac_mode m, HVACMode.of_value hvac_mode = Ok m ->
     async_set_hvac_mode bleak BEDJET_COMMANDS uuid hvac_mode w = (w, Ok tt)) /\
  (forall preset_mode m, PresetMode.of_value preset_mode = Ok m ->
     async_set_preset_mode bleak BEDJET_COMMANDS uuid preset_mode w
       = (w, Ok tt)) /\
  (forall fan_mode p, resolve_fan_pct fan_mode = Ok p ->
     async_set_fan_mode bleak uuid fan_mode w = (w, Ok tt)) /\
  (forall temperature b, temp_byte temperature = Ok b ->
     async_set_temperature bleak uuid (Some temperature) w = (w, Ok tt)) /\
  (forall hvac_mode,
     fst (async_set_hvac_mode bleak BEDJET_COMMANDS uuid hvac_mode w) = w) /\
  (forall preset_mode,
     fst (async_set_preset_mode bleak BEDJET_COMMANDS uuid preset_mode w)
       = w) /\
  (forall fan_mode, fst (async_set_fan_mode bleak uuid fan_mode w) = w) /\
  (forall temperature,
     fst (async_set_temperature bleak uuid temperature w) = w).
Proof.
  assert (S : forall command, send_command bleak uuid command w = (w, Ok tt))
    by (intro; now apply send_command_disconnected).
  assert (Hh : forall hvac_mode m, HVACMode.of_value hvac_mode = Ok m ->
            async_set_hvac_mode bleak BEDJET_COMMANDS uuid hvac_mode w
              = (w, Ok tt)).
  { intros s m Hm. rewrite (async_set_hvac_mode_sends _ _ _ _ m w Hm).
    unfold bind. rewrite S. apply S. }
  assert (Hp : forall preset_mode m, PresetMode.of_value preset_mode = Ok m ->
            async_set_preset_mode bleak BEDJET_COMMANDS uuid preset_mode w
              = (w, Ok tt)).
  { intros s m Hm. rewrite (async_set_preset_mode_sends _ _ _ _ m w Hm).
    apply S. }
  assert (Hf : forall fan_mode p, resolve_fan_pct fan_mode = Ok p ->
            async_set_fan_mode bleak uuid fan_mode w = (w, Ok tt)).
  { intros a p Hr.
    destruct (Z_le_dec 0 p) as [H0|H0]; [destruct (Z_le_dec p 100) as [H1|H1]|].
    - rewrite (async_set_fan_mode_sends bleak uuid a p _ w Hr (conj H0 H1)
                 (fan_byte_in_range p (conj H0 H1))).
      apply S.
    - apply (async_set_fan_mode_skips bleak uuid a p w Hr). lia.
    - apply (async_set_fan_mode_skips bleak uuid a p w Hr). lia. }
  assert (Ht : forall temperature b, temp_byte temperature = Ok b ->
            async_set_temperature bleak uuid (Some temperature) w
              = (w, Ok tt)).
  { intros t b Hb. rewrite (async_set_temperature_sends _ _ t b w Hb).
    apply S. }
  repeat (split; [first [exact S | exact Hh | exact Hp | exact Hf | exact Ht
                        | intro; apply S] |]).
  split; [|split; [|split]].
  - intro s. destruct (HVACMode.of_value s) as [m|e] eqn:E.
    + now rewrite (Hh s m E).
    + unfold async_set_hvac_mode, bind, lift. now rewrite E.
  - intro s. destruct (PresetMode.of_value s) as [m|e] eqn:E.
    + now rewrite (Hp s m E).
    + unfold async_set_preset_mode, bind, lift. now rewrite E.
  - intro a. destruct (resolve_fan_pct a) as [p|e] eqn:E.
    + now rewrite (Hf a p E).
    + unfold async_set_fan_mode, bind, lift. now rewrite E.
  - intros [t|]; [|reflexivity].
    destruct (temp_byte t) as [b|e] eqn:E.
    + now rewrite (Ht t b E).
    + unfold async_set_temperature, bind, lift. now rewrite E.
Qed.

Lemma commands_skipped_when_disconnected_witness :
  async_set_hvac_mode transport_up (fun _ => Some 3) command_uuid "heat"
    fresh_entity
  = (fresh_entity, Ok tt).
Proof.
  refine (proj1 (proj2 (proj2 (proj2
    (commands_skipped_when_disconnected transport_up (fun _ => Some 3)
       command_uuid fresh_entity _)))) "heat" HVACMode.heat _);
    reflexivity.
Defined.

(** C10.  Once [fan_mode] has resolved to a percent [p]:
    outside 0..100 the call returns without writing and without
    raising, the world unchanged; inside, it sends the command
    [0x07, b] with [b + 1] the integer nearest to p / 5 (it is
    [round(p/5) - 1]), which a connected session writes; for p = 0, 1
    or 2 the data byte is -1. *)
Theorem fan_mode_guard (bleak : Transport) (uuid : string)
    (fan_mode : fan_arg) (p : Z) (w : World)
    (Hres : resolve_fan_pct fan_mode = Ok p) :
  (~ (0 <= p <= 100) ->
   async_set_fan_mode bleak uuid fan_mode w = (w, Ok tt)) /\
  (0 <= p <= 100 ->
   exists b,
     fan_byte p = Ok b /\
     2 * Z.abs (5 * (b + 1) - p) < 5 /\
     async_set_fan_mode bleak uuid fan_mode w
       = send_command bleak uuid [Some 0x07; Some b] w /\
     (client_is_connected (_client w) = true ->
      trace (fst (async_set_fan_mode bleak uuid fan_mode w))
        = trace w ++ [WriteGattChar uuid [Some 0x07; Some b]]) /\
     (p = 0 \/ p = 1 \/ p = 2 -> b = -1)).
Proof.
  split; [apply async_set_fan_mode_skips; exact Hres|].
  intro Hp. exists ((p + 2) / 5 - 1).
  pose proof (fan_byte_in_range p Hp) as Hb.
  pose proof (async_set_fan_mode_sends bleak uuid fan_mode p _ w Hres Hp Hb)
    as Hs.
  split; [exact Hb|]. split; [|split; [exact Hs|split]].
  - pose proof (Z.div_mod (p + 2) 5 ltac:(lia)).
    pose proof (Z.mod_pos_bound (p + 2) 5 ltac:(lia)). lia.
  - intro Hup. rewrite Hs. now apply send_command_connected.
  - intros [-> | [-> | ->]]; reflexivity.
Qed.

Lemma fan_mode_guard_witness :
  trace (fst (async_set_fan_mode transport_up command_uuid (FanStr "2")
                connected_entity))
    = trace connected_entity
        ++ [WriteGattChar command_uuid [Some 0x07; Some (-1)]].
Proof.
  destruct (proj2 (fan_mode_guard transport_up command_uuid (FanStr "2") 2
                     connected_entity eq_refl) ltac:(lia))
    as (b & Hb & _ & _ & Ht & Hm).
  rewrite <- (Hm (or_intror (or_intror eq_refl))).
  apply Ht. reflexivity.
Defined.

(* ================================================================== *)
(** ** Further properties of the notification handler *)

(** The decoded operating mode is determined by the decoded preset. *)
Lemma get_hvac_mode_of_preset (value : list byte) :
  Decode.get_hvac_mode value =
  match Decode.get_preset_mode value with
  | Ok (Some p) => Ok (PresetMode.to_hvac p)
  | Ok None => Raise AttributeError
  | Raise e => Raise e
  end.
Proof.
  unfold Decode.get_hvac_mode.
  destruct (Decode.get_preset_mode value) as [[p|]|e]; reflexivity.
Qed.

(** Case analysis on the decoders of [handle_data], in program order,
    each goal then being closed by evaluation. *)
Ltac decoder_cases value :=
  rewrite ?(get_hvac_mode_of_preset value) in *;
  destruct (Decode.get_current_temperature value) as [?ct|?x];
  destruct (Decode.get_target_temperature value) as [?tg|?x];
  destruct (Decode.get_time value) as [?tm|?x];
  destruct (Decode.get_timestring value) as [?ts|?x];
  destruct (Decode.get_fan_pct value) as [?fp|?x];
  destruct (Decode.get_preset_mode value) as [[?p|]|?x].

(** When [handle_data] returns, every decoder has returned and the
    world is the old one with all eight fields rewritten. *)
Lemma handle_data_returns (now : Z) (value : list byte) (w : World) :
  snd (handle_data now value w) = Ok tt ->
  exists ct tg tm ts fp p,
    Decode.get_current_temperature value = Ok ct /\
    Decode.get_target_temperature value = Ok tg /\
    Decode.get_time value = Ok tm /\
    Decode.get_timestring value = Ok ts /\
    Decode.get_fan_pct value = Ok fp /\
    Decode.get_preset_mode value = Ok (Some p) /\
    fst (handle_data now value w) =
      mk_World
        (mk_Entity (_mac (self w)) (Some ct) (Some tg)
           (PresetMode.to_hvac p) (Some p)
           (Some tm) (Some ts) (Some fp) (Some now))
        (_client w) (trace w ++ [ScheduleUpdateHaState]).
Proof.
  destruct w as [e c tr]. unfold handle_data.
  decoder_cases value; intro H; try (lazy in H; discriminate H).
  do 6 eexists. repeat (split; [reflexivity|]). reflexivity.
Qed.

(** Whether [handle_data] returns or raises depends on the payload
    alone. *)
Lemma handle_data_result_of_payload (now now' : Z) (value : list byte)
    (w w' : World) :
  snd (handle_data now value w) = snd (handle_data now' value w').
Proof.
  destruct w as [e c tr], w' as [e' c' tr']. unfold handle_data.
  decoder_cases value; reflexivity.
Qed.

(** X1.  Whenever [handle_data] returns normally, a preset is stored,
    the stored operating mode is the projection [to_hvac] of that preset
    (so it is [None] for a memory preset), and last-seen is the receipt
    time. *)
Theorem handle_data_keeps_projection (now : Z) (value : list byte)
    (w : World) (H : snd (handle_data now value w) = Ok tt) :
  exists p,
    _preset_mode (self (fst (handle_data now value w))) = Some p /\
    _hvac_mode (self (fst (handle_data now value w)))
      = PresetMode.to_hvac p /\
    preset_mode (self (fst (handle_data now value w)))
      = Some (PresetMode.value p) /\
    hvac_mode (self (fst (handle_data now value w)))
      = option_map HVACMode.value (PresetMode.to_hvac p) /\
    _last_seen (self (fst (handle_data now value w))) = Some now.
Proof.
  destruct (handle_data_returns now value w H)
    as (ct & tg & tm & ts & fp & p & _ & _ & _ & _ & _ & _ & E).
  exists p. rewrite E. repeat split; reflexivity.
Qed.

Lemma handle_data_keeps_projection_witness :
  exists p,
    _preset_mode (self (fst (handle_data 1000 notification_m1 fresh_entity)))
      = Some p /\
    _hvac_mode (self (fst (handle_data 1000 notification_m1 fresh_entity)))
      = PresetMode.to_hvac p /\
    preset_mode (self (fst (handle_data 1000 notification_m1 fresh_entity)))
      = Some (PresetMode.value p) /\
    hvac_mode (self (fst (handle_data 1000 notification_m1 fresh_entity)))
      = option_map HVACMode.value (PresetMode.to_hvac p) /\
    _last_seen (self (fst (handle_data 1000 notification_m1 fresh_entity)))
      = Some 1000.
Proof.
  apply (handle_data_keeps_projection 1000 notification_m1 fresh_entity).
  vm_compute. reflexivity.
Defined.

(** X2.  A notification that is handled to the end replaces the status
    wholesale: the stored fields depend on the payload, the receipt time
    and the address only, not on what was stored before. *)
Theorem handle_data_overwrites (now : Z) (value : list byte)
    (w w' : World)
    (Hmac : _mac (self w) = _mac (self w'))
    (H : snd (handle_data now value w) = Ok tt) :
  snd (handle_data now value w') = Ok tt /\
  self (fst (handle_data now value w'))
    = self (fst (handle_data now value w)).
Proof.
  assert (H' : snd (handle_data now value w') = Ok tt)
    by (rewrite (handle_data_result_of_payload now now value w' w); exact H).
  split; [exact H'|].
  destruct (handle_data_returns now value w H)
    as (ct & tg & tm & ts & fp & p & E1 & E2 & E3 & E4 & E5 & E6 & E).
  destruct (handle_data_returns now value w' H')
    as (ct' & tg' & tm' & ts' & fp' & p' & F1 & F2 & F3 & F4 & F5 & F6 & F).
  rewrite E, F. cbn [self].
  rewrite F1 in E1; rewrite F2 in E2; rewrite F3 in E3; rewrite F4 in E4;
    rewrite F5 in E5; rewrite F6 in E6.
  injection E1 as ->; injection E2 as ->; injection E3 as ->;
    injection E4 as ->; injection E5 as ->; injection E6 as ->.
  now rewrite Hmac.
Qed.

Lemma handle_data_overwrites_witness :
  snd (handle_data 2000 notification_m1 world_after_off) = Ok tt /\
  self (fst (handle_data 2000 notification_m1 world_after_off))
    = self (fst (handle_data 2000 notification_m1 fresh_entity)).
Proof.
  apply (handle_data_overwrites 2000 notification_m1 fresh_entity
           world_after_off).
  - reflexivity.
  - vm_compute. reflexivity.
Defined.

(** X3.  Whatever the payload, [handle_data] leaves the address and the
    BLE client alone, and it tells the host exactly when it returns
    normally: the trace gains one [schedule_update_ha_state] on return
    and nothing when an exception is raised. *)
Theorem handle_data_frame (now : Z) (value : list byte) (w : World) :
  _mac (self (fst (handle_data now value w))) = _mac (self w) /\
  _client (fst (handle_data now value w)) = _client w /\
  trace (fst (handle_data now value w)) =
    trace w ++ match snd (handle_data now value w) with
               | Ok _ => [ScheduleUpdateHaState]
               | Raise _ => []
               end.
Proof.
  destruct w as [e c tr]. unfold handle_data.
  decoder_cases value;
    cbv [bind lift update_self emit schedule_update_ha_state fst snd self
         _client trace _mac Setter.current_temperature
         Setter.target_temperature Setter.time Setter.timestring
         Setter.fan_pct Setter.hvac_mode Setter.preset_mode
         Setter.last_seen];
    rewrite ?app_nil_r; repeat split; reflexivity.
Qed.

(* ================================================================== *)
(** ** Further properties of the codec *)

Lemma get_target_temperature_of_byte (value : list byte) (b : Z) :
  Py.getitem value 8 = Ok b ->
  Decode.get_target_temperature value = decoded_temperature b.
Proof.
  intro E. unfold Decode.get_target_temperature, decoded_temperature.
  rewrite E. reflexivity.
Qed.

Lemma temperature_round_trip_check (t : Z) :
  min_temp <= t <= max_temp ->
  (let! b := temp_byte t in decoded_temperature b) = Ok (read_back t).
Proof.
  intro H. apply result_Z_eqb_eq.
  apply (forallb_range
           (fun t => result_Z_eqb
                       (let! b := temp_byte t in decoded_temperature b)
                       (Ok (read_back t)))
           44 66); [vm_compute; reflexivity | unfold min_temp, max_temp in H; lia].
Qed.

(** X4.  Round trip of the temperature codec on the supported range
    66..109: if a notification carries in byte 8 the byte that
    [async_set_temperature] writes for [t], the decoded target
    temperature is [t] again, except that 69 reads back as 70 and 95,
    103, 104 read back one degree lower; it is never off by more than
    one degree. *)
Theorem temperature_round_trip (t b : Z) (value : list byte)
    (Ht : min_temp <= t <= max_temp)
    (Hb : temp_byte t = Ok b)
    (Hv : Py.getitem value 8 = Ok b) :
  exists r,
    Decode.get_target_temperature value = Ok r /\
    - 1 <= r - t <= 1 /\
    (t = 69 -> r = 70) /\
    (t = 95 \/ t = 103 \/ t = 104 -> r = t - 1) /\
    (t <> 69 -> t <> 95 -> t <> 103 -> t <> 104 -> r = t).
Proof.
  pose proof (temperature_round_trip_check t Ht) as C.
  rewrite Hb in C. cbn [rbind] in C.
  exists (read_back t).
  rewrite (get_target_temperature_of_byte value b Hv).
  split; [exact C|].
  unfold read_back.
  destruct (Z.eqb_spec t 69), (Z.eqb_spec t 95), (Z.eqb_spec t 103),
    (Z.eqb_spec t 104); cbn [orb]; repeat split; intros; lia.
Qed.

Lemma temperature_round_trip_witness :
  exists r,
    Decode.get_target_temperature notification_off = Ok r /\
    - 1 <= r - 86 <= 1 /\
    (86 = 69 -> r = 70) /\
    (86 = 95 \/ 86 = 103 \/ 86 = 104 -> r = 86 - 1) /\
    (86 <> 69 -> 86 <> 95 -> 86 <> 103 -> 86 <> 104 -> r = 86).
Proof.
  apply (temperature_round_trip 86 60 notification_off).
  - unfold min_temp, max_temp. lia.
  - vm_compute. reflexivity.
  - reflexivity.
Defined.

(** X5.  The temperature byte grows strictly with the temperature, and
    it is a byte (0..255) exactly for temperatures 31..261; on the
    supported range 66..109 it lies in 38..86.  No range check is made:
    outside 31..261 the value handed to the transport is not a byte. *)
Theorem temp_byte_range (t : Z) (Ht : -10000 <= t <= 10000) :
  exists b,
    temp_byte t = Ok b /\
    (0 <= b <= 255 <-> 31 <= t <= 261) /\
    (min_temp <= t <= max_temp -> 38 <= b <= 86) /\
    (forall t' b', t < t' <= 10000 -> temp_byte t' = Ok b' -> b < b').
Proof.
  exists ((Z.quot (t - 60) 9 + (t - 66)) + 0x26).
  split; [apply temp_byte_in_range; exact Ht|].
  pose proof (Z.quot_rem' (t - 60) 9) as Q.
  assert (R : - 9 < Z.rem (t - 60) 9 < 9).
  { pose proof (Z.rem_bound_abs (t - 60) 9 ltac:(lia)). lia. }
  assert (Sg : (0 <= t - 60 -> 0 <= Z.rem (t - 60) 9) /\
               (t - 60 <= 0 -> Z.rem (t - 60) 9 <= 0)).
  { split; intro.
    - apply Z.rem_nonneg; lia.
    - apply Z.rem_nonpos; lia. }
  split; [|split].
  - split; intro; lia.
  - unfold min_temp, max_temp. intro. lia.
  - intros t' b' Ht' Hb'.
    rewrite (temp_byte_in_range t' ltac:(lia)) in Hb'.
    injection Hb' as <-.
    pose proof (Z.quot_le_mono (t - 60) (t' - 60) 9 ltac:(lia) ltac:(lia)).
    lia.
Qed.

Lemma temp_byte_range_witness :
  exists b,
    temp_byte 72 = Ok b /\
    (0 <= b <= 255 <-> 31 <= 72 <= 261) /\
    (min_temp <= 72 <= max_temp -> 38 <= b <= 86) /\
    (forall t' b', 72 < t' <= 10000 -> temp_byte t' = Ok b' -> b < b').
Proof. apply (temp_byte_range 72). lia. Defined.

(** X6.  [set_time] splits the minutes into whole hours and minutes of
    the hour without validating them: the two data values always
    recombine to the argument and the second lies in 0..59, but the
    hours are a byte only for 0 <= minutes <= 15359, and negative
    minutes give a negative hours value. *)
Theorem set_time_bytes (bleak : Transport) (uuid : string) (minutes : Z)
    (w : World) (Hup : client_is_connected (_client w) = true) :
  exists h m,
    trace (fst (set_time bleak uuid minutes w))
      = trace w ++ [WriteGattChar uuid [Some 0x02; Some h; Some m]] /\
    60 * h + m = minutes /\
    0 <= m <= 59 /\
    (0 <= h <= 255 <-> 0 <= minutes <= 15359) /\
    (minutes < 0 -> h < 0).
Proof.
  exists (minutes / 60), (minutes mod 60).
  split; [apply send_command_connected; exact Hup|].
  pose proof (Z.div_mod minutes 60 ltac:(lia)).
  pose proof (Z.mod_pos_bound minutes 60 ltac:(lia)).
  repeat split; intros; lia.
Qed.

Lemma set_time_bytes_witness :
  exists h m,
    trace (fst (set_time transport_up command_uuid 600 connected_entity))
      = trace connected_entity
          ++ [WriteGattChar command_uuid [Some 0x02; Some h; Some m]] /\
    60 * h + m = 600 /\
    0 <= m <= 59 /\
    (0 <= h <= 255 <-> 0 <= 600 <= 15359) /\
    (600 < 0 -> h < 0).
Proof.
  apply (set_time_bytes transport_up command_uuid 600 connected_entity).
  reflexivity.
Defined.

(** A percent that [resolve_fan_pct] returns is never negative. *)
Lemma resolve_fan_pct_nonneg (fan_mode : fan_arg) (p : Z) :
  resolve_fan_pct fan_mode = Ok p -> 0 <= p.
Proof.
  destruct fan_mode as [s|n|x|m]; cbn [resolve_fan_pct];
    try discriminate.
  - destruct (isnumeric s).
    + unfold int_of_str. destruct (isnumeric s); [|discriminate].
      destruct (NilEmpty.uint_of_string s) as [u|]; [|discriminate].
      intro E. injection E as <-.
      unfold Z.of_uint. apply N2Z.is_nonneg.
    + destruct (FanMode.getitem s) as [m|e]; [|discriminate].
      cbn [rbind]. intro E. injection E as <-. destruct m; cbn; lia.
  - destruct (Z.leb_spec 0 n); [|discriminate].
    intro E. injection E as <-. assumption.
Qed.

(** X7.  Whatever the argument and the state of the link,
    [async_set_fan_mode] writes at most one command, and a command it
    writes is [0x07, b] with -1 <= b <= 19: no fan index above 19 ever
    reaches the transport, while -1 does (for 0, 1 and 2 percent). *)
Theorem fan_write_bounds (bleak : Transport) (uuid : string)
    (fan_mode : fan_arg) (w : World) :
  trace (fst (async_set_fan_mode bleak uuid fan_mode w)) = trace w
  \/
  exists b,
    trace (fst (async_set_fan_mode bleak uuid fan_mode w))
      = trace w ++ [WriteGattChar uuid [Some 0x07; Some b]] /\
    -1 <= b <= 19.
Proof.
  destruct (resolve_fan_pct fan_mode) as [p|e] eqn:Hr.
  - destruct (Z_le_dec p 100) as [H100|H100].
    + pose proof (resolve_fan_pct_nonneg fan_mode p Hr) as H0.
      rewrite (async_set_fan_mode_sends bleak uuid fan_mode p _ w Hr
                 (conj H0 H100) (fan_byte_in_range p (conj H0 H100))).
      destruct (client_is_connected (_client w)) eqn:Hc.
      * right. exists ((p + 2) / 5 - 1).
        split; [now apply send_command_connected|].
        pose proof (Z.div_mod (p + 2) 5 ltac:(lia)).
        pose proof (Z.mod_pos_bound (p + 2) 5 ltac:(lia)). lia.
      * left. now rewrite send_command_disconnected.
    + left. rewrite (async_set_fan_mode_skips bleak uuid fan_mode p w Hr);
        [reflexivity | lia].
  - left. unfold async_set_fan_mode, bind, lift. now rewrite Hr.
Qed.

(** X8.  The three ways of naming a fan tier agree: for every member of
    [FanMode], passing its name, its percentage as an [int] or its
    percentage as a digit string runs the same command, with data byte
    [value / 5 - 1]; and the tier resolved from a member's own percentage
    is that member.  An ASCII string that is neither a digit string nor
    the name of a member raises [KeyError] and leaves the world
    unchanged. *)
Theorem fan_tier_arguments_agree (bleak : Transport) (uuid : string)
    (w : World) :
  (forall m : FanMode.t,
     async_set_fan_mode bleak uuid (FanStr (FanMode.name m)) w
       = send_command bleak uuid
           [Some 0x07; Some (FanMode.value m / 5 - 1)] w /\
     async_set_fan_mode bleak uuid (FanInt (FanMode.value m)) w
       = async_set_fan_mode bleak uuid (FanStr (FanMode.name m)) w /\
     async_set_fan_mode bleak uuid (FanStr (Py.str (FanMode.value m))) w
       = async_set_fan_mode bleak uuid (FanStr (FanMode.name m)) w /\
     FanMode.get_fan_mode (Some (FanMode.value m)) = Some m) /\
  (forall s : string,
     is_ascii_text s = true ->
     isnumeric s = false ->
     (forall m, FanMode.name m <> s) ->
     async_set_fan_mode bleak uuid (FanStr s) w = (w, Raise KeyError)).
Proof.
  split.
  - intro m.
    assert (forall a, resolve_fan_pct a = Ok (FanMode.value m) ->
              async_set_fan_mode bleak uuid a w
                = send_command bleak uuid
                    [Some 0x07; Some (FanMode.value m / 5 - 1)] w) as A.
    { intros a Ha.
      apply (async_set_fan_mode_sends bleak uuid a (FanMode.value m) _ w Ha).
      - destruct m; cbn; lia.
      - destruct m; vm_compute; reflexivity. }
    rewrite (A (FanStr (FanMode.name m))) by (destruct m; reflexivity).
    rewrite (A (FanInt (FanMode.value m))) by (destruct m; reflexivity).
    rewrite (A (FanStr (Py.str (FanMode.value m))))
      by (destruct m; vm_compute; reflexivity).
    repeat split. destruct m; reflexivity.
  - intros s _ Hn Hs.
    unfold async_set_fan_mode, bind, lift, resolve_fan_pct. rewrite Hn.
    unfold FanMode.getitem.
    destruct (find (fun m => String.eqb s (FanMode.name m)) FanMode.members)
      as [m|] eqn:F; [|reflexivity].
    apply find_some in F. destruct F as [_ F].
    apply String.eqb_eq in F. exfalso. exact (Hs m (eq_sym F)).
Qed.

(** X9.  The fan codec is not its own inverse: for a percentage that is
    a multiple of five, a notification carrying in byte 10 the byte the
    fan command writes decodes to that percentage minus five. *)
Theorem fan_round_trip_is_five_short (p b : Z) (value : list byte)
    (Hp : 0 <= p <= 100) (H5 : p mod 5 = 0)
    (Hb : fan_byte p = Ok b)
    (Hv : Py.getitem value 10 = Ok b) :
  Decode.get_fan_pct value = Ok (p - 5).
Proof.
  rewrite (fan_byte_in_range p Hp) in Hb. injection Hb as <-.
  unfold Decode.get_fan_pct. rewrite Hv. cbn [rbind]. f_equal.
  pose proof (Z.div_mod (p + 2) 5 ltac:(lia)).
  pose proof (Z.mod_pos_bound (p + 2) 5 ltac:(lia)).
  pose proof (Z.div_mod p 5 ltac:(lia)).
  lia.
Qed.

Lemma fan_round_trip_is_five_short_witness :
  Decode.get_fan_pct notification_off = Ok (45 - 5).
Proof.
  apply (fan_round_trip_is_five_short 45 8 notification_off).
  - lia.
  - reflexivity.
  - vm_compute. reflexivity.
  - reflexivity.
Defined.

(** X10.  The [fan_mode] property: no stored percent, or a stored 0,
    reads as [None]; a stored percent up to 100 reads as the name of its
    tier; a stored percent above 100 (a fan byte above 20 in the last
    notification) makes the property raise [AttributeError], since the
    name of no tier is asked for. *)
Theorem fan_mode_property (e : Entity) :
  match _fan_pct e with
  | None => fan_mode e = Ok None
  | Some p =>
      if p =? 0 then fan_mode e = Ok None
      else if 100 <? p then fan_mode e = Raise AttributeError
      else exists m,
             fan_mode e = Ok (Some (FanMode.name m)) /\
             FanMode.get_fan_mode (Some p) = Some m
  end.
Proof.
  unfold fan_mode. destruct (_fan_pct e) as [p|]; [|reflexivity].
  unfold FanMode.falsy, FanMode.get_fan_mode, FanMode.falsy.
  destruct (Z.eqb_spec p 0) as [->|Hnz]; [reflexivity|].
  destruct (Z.ltb_spec 100 p) as [Hbig|Hle].
  - unfold FanMode.members, find, FanMode.value.
    repeat match goal with
           | |- context [?a <=? ?b] =>
               destruct (Z.leb_spec a b); [lia|]
           end.
    reflexivity.
  - unfold FanMode.members, find.
    repeat match goal with
           | |- context [p <=? FanMode.value ?m] =>
               destruct (Z.leb_spec p (FanMode.value m));
               [ exists m; split; reflexivity | ]
           end.
    cbn in *. lia.
Qed.

(* ================================================================== *)
(** ** Further properties of the mode model and of the commands *)

Lemma HVACMode_of_value_value (m : HVACMode.t) :
  HVACMode.of_value (HVACMode.value m) = Ok m.
Proof. destruct m; reflexivity. Qed.

(** X11.  Lookup of a mode by its string is the inverse of [value], for
    both enumerations: [HVACMode(s)] returns [m] exactly when [s] is the
    value of [m], and likewise for [PresetMode]; a string that is the
    value of no member raises [ValueError]. *)
Theorem mode_lookup_round_trip :
  (forall s m, HVACMode.of_value s = Ok m <-> HVACMode.value m = s) /\
  (forall s m, PresetMode.of_value s = Ok m <-> PresetMode.value m = s) /\
  (forall s, (forall m, HVACMode.value m <> s) ->
             HVACMode.of_value s = Raise ValueError) /\
  (forall s, (forall m, PresetMode.value m <> s) ->
             PresetMode.of_value s = Raise ValueError).
Proof.
  repeat split.
  - unfold HVACMode.of_value.
    destruct (find (fun m0 => String.eqb s (HVACMode.value m0))
                HVACMode.members) as [m0|] eqn:F; [|discriminate].
    intro E. injection E as <-.
    apply find_some in F. destruct F as [_ F].
    apply String.eqb_eq in F. now symmetry.
  - intros <-. apply HVACMode_of_value_value.
  - unfold PresetMode.of_value.
    destruct (find (fun m0 => String.eqb s (PresetMode.value m0))
                PresetMode.members) as [m0|] eqn:F; [|discriminate].
    intro E. injection E as <-.
    apply find_some in F. destruct F as [_ F].
    apply String.eqb_eq in F. now symmetry.
  - intros <-. apply PresetMode_of_value_value.
  - intros s Hs. unfold HVACMode.of_value.
    destruct (find (fun m0 => String.eqb s (HVACMode.value m0))
                HVACMode.members) as [m0|] eqn:F; [|reflexivity].
    apply find_some in F. destruct F as [_ F].
    apply String.eqb_eq in F. exfalso. exact (Hs m0 (eq_sym F)).
  - intros s Hs. unfold PresetMode.of_value.
    destruct (find (fun m0 => String.eqb s (PresetMode.value m0))
                PresetMode.members) as [m0|] eqn:F; [|reflexivity].
    apply find_some in F. destruct F as [_ F].
    apply String.eqb_eq in F. exfalso. exact (Hs m0 (eq_sym F)).
Qed.

(** X12.  Every operating mode is also a preset of the same string, and
    [to_hvac] takes that preset back to the mode: the projection is
    onto, and it is the identity on the four shared names.  Conversely a
    preset that projects to a mode with the same string is one of those
    four. *)
Theorem operating_modes_are_presets :
  (forall h : HVACMode.t,
     exists p,
       PresetMode.of_value (HVACMode.value h) = Ok p /\
       PresetMode.value p = HVACMode.value h /\
       PresetMode.to_hvac p = Some h) /\
  (forall p h,
     PresetMode.to_hvac p = Some h ->
     PresetMode.value p = HVACMode.value h \/
     (h = HVACMode.heat /\ (p = PresetMode.turbo \/ p = PresetMode.ext_ht))).
Proof.
  split.
  - intro h. destruct h;
      [exists PresetMode.off | exists PresetMode.cool
      | exists PresetMode.heat | exists PresetMode.dry];
      repeat split; reflexivity.
  - intros p h. destruct p; cbn; intro E; try discriminate;
      injection E as <-; auto.
Qed.

(** X13.  Setting an operating mode on a connected session is two
    commands in a row: the mode command [0x01, byte] and then the timer
    command for 600 minutes, [0x02, 10, 0].  If the first write raises,
    the exception reaches the caller and the timer command is not
    written; if the first write returns but the link is down after it,
    the timer command is skipped silently. *)
Theorem set_hvac_mode_then_timer (bleak : Transport)
    (BEDJET_COMMANDS : string -> option Z) (uuid : string)
    (hvac_mode : string) (m : HVACMode.t) (w : World)
    (Hm : HVACMode.of_value hvac_mode = Ok m)
    (Hup : client_is_connected (_client w) = true) :
  let first := write_result bleak (write_calls (_client w)) in
  let mode_command :=
    WriteGattChar uuid [Some 0x01; BEDJET_COMMANDS (HVACMode.value m)] in
  let timer_command := WriteGattChar uuid [Some 0x02; Some 10; Some 0] in
  (raised first = None -> connected_after first = true ->
   trace (fst (async_set_hvac_mode bleak BEDJET_COMMANDS uuid hvac_mode w))
     = trace w ++ [mode_command; timer_command]) /\
  (raised first = None -> connected_after first = false ->
   trace (fst (async_set_hvac_mode bleak BEDJET_COMMANDS uuid hvac_mode w))
     = trace w ++ [mode_command] /\
   snd (async_set_hvac_mode bleak BEDJET_COMMANDS uuid hvac_mode w) = Ok tt) /\
  (forall e, raised first = Some e ->
   trace (fst (async_set_hvac_mode bleak BEDJET_COMMANDS uuid hvac_mode w))
     = trace w ++ [mode_command] /\
   snd (async_set_hvac_mode bleak BEDJET_COMMANDS uuid hvac_mode w)
     = Raise e).
Proof.
  intros first mode_command timer_command.
  rewrite (async_set_hvac_mode_sends bleak BEDJET_COMMANDS uuid _ m w Hm).
  destruct w as [s [c cb nc nd nw] tr].
  cbn [_client client_is_connected write_calls] in *. subst c.
  subst first mode_command timer_command.
  cbn [_client write_calls].
  unfold bind, send_command, is_connected, client_write_gatt_char, bind,
    emit, update_client, outcome, ret, raise.
  cbn [_client client_is_connected write_calls self trace
       disconnected_callback connect_calls disconnect_calls].
  destruct (raised (write_result bleak nw)) as [e|].
  - split; [discriminate|]. split; [discriminate|].
    intros e' E. injection E as <-. split; reflexivity.
  - split; [|split; [|discriminate]].
    + intros _ Hc. rewrite Hc. cbn.
      destruct (raised (write_result bleak (S nw)));
        cbn; rewrite <- app_assoc; reflexivity.
    + intros _ Hc. rewrite Hc. split; reflexivity.
Qed.

Lemma set_hvac_mode_then_timer_witness :
  trace (fst (async_set_hvac_mode transport_up (fun _ => Some 3)
                command_uuid "heat" connected_entity))
    = trace connected_entity
        ++ [WriteGattChar command_uuid [Some 0x01; Some 3];
            WriteGattChar command_uuid [Some 0x02; Some 10; Some 0]].
Proof.
  refine (proj1 (set_hvac_mode_then_timer transport_up (fun _ => Some 3)
                   command_uuid "heat" HVACMode.heat connected_entity _ _)
            _ _); reflexivity.
Defined.

(* ================================================================== *)
(** ** Further properties of the connection manager *)

(** What one [try] statement of the connect loop may change: it makes
    one connect call and at most one disconnect call, and touches
    neither the entity nor the write counter. *)
Lemma connect_attempt_frame (bleak : Transport) (i : Z) (w : World) :
  self (fst (connect_attempt bleak i w)) = self w /\
  write_calls (_client (fst (connect_attempt bleak i w)))
    = write_calls (_client w) /\
  connect_calls (_client (fst (connect_attempt bleak i w)))
    = Datatypes.S (connect_calls (_client w)) /\
  (disconnect_calls (_client w)
     <= disconnect_calls (_client (fst (connect_attempt bleak i w)))
     <= Datatypes.S (disconnect_calls (_client w)))%nat.
Proof.
  destruct w as [s [c cb nc nd nw] tr].
  unfold connect_attempt, try_except, client_connect, client_disconnect,
    sleep, bind, emit, update_client, outcome, ret, raise.
  cbn.
  destruct (raised (connect_result bleak nc)) as [e|]; cbn;
    [destruct (isinstance_Exception e); cbn;
     [destruct (raised (disconnect_result bleak nd)) as [e'|]; cbn;
      [destruct (isinstance_BleakError e'); cbn |] |] |];
    repeat split; lia.
Qed.

Lemma connect_loop_frame (bleak : Transport) (n : nat) :
  forall (i : Z) (w : World),
    self (fst (connect_loop bleak n i w)) = self w /\
    write_calls (_client (fst (connect_loop bleak n i w)))
      = write_calls (_client w) /\
    (connect_calls (_client w)
       <= connect_calls (_client (fst (connect_loop bleak n i w)))
       <= connect_calls (_client w) + n)%nat /\
    (disconnect_calls (_client (fst (connect_loop bleak n i w)))
       + connect_calls (_client w)
     <= disconnect_calls (_client w)
        + connect_calls (_client (fst (connect_loop bleak n i w))))%nat /\
    (disconnect_calls (_client w)
     <= disconnect_calls (_client (fst (connect_loop bleak n i w))))%nat /\
    (n <> 0%nat ->
     (connect_calls (_client w) + 1
      <= connect_calls (_client (fst (connect_loop bleak n i w))))%nat).
Proof.
  induction n as [|n IH]; intros i w.
  - cbn. repeat split; lia.
  - rewrite connect_loop_S.
    destruct (connect_attempt_frame bleak i w) as (A1 & A2 & A3 & A4).
    destruct (connect_attempt bleak i w) as [w1 [[]|e]];
      cbn [fst snd] in *.
    + destruct (client_is_connected (_client w1)).
      * unfold set_disconnected_callback, bind, update_client, emit. cbn.
        repeat split; try assumption; lia.
      * destruct (IH (i + 1) w1) as (B1 & B2 & B3 & B4 & B5 & _).
        repeat split; try congruence; lia.
    + repeat split; try assumption; lia.
Qed.

(** X14.  Whatever the BLE stack does, [connect] never touches the
    stored status and never writes a command; it makes at most
    [max_retries] connect calls (none for [max_retries <= 0]) and at
    most one cleanup disconnect per connect call; for
    [max_retries >= 1] it makes at least one connect call, even on a
    session that is already connected; and it returns normally only
    with the transport reporting connected. *)
Theorem connect_frame (bleak : Transport) (max_retries : Z) (w : World) :
  self (fst (connect bleak max_retries w)) = self w /\
  write_calls (_client (fst (connect bleak max_retries w)))
    = write_calls (_client w) /\
  (connect_calls (_client w)
     <= connect_calls (_client (fst (connect bleak max_retries w)))
     <= connect_calls (_client w) + Z.to_nat max_retries)%nat /\
  (disconnect_calls (_client (fst (connect bleak max_retries w)))
     - disconnect_calls (_client w)
   <= connect_calls (_client (fst (connect bleak max_retries w)))
      - connect_calls (_client w))%nat /\
  (1 <= max_retries ->
   (connect_calls (_client w) + 1
    <= connect_calls (_client (fst (connect bleak max_retries w))))%nat) /\
  (snd (connect bleak max_retries w) = Ok tt ->
   client_is_connected (_client (fst (connect bleak max_retries w))) = true).
Proof.
  rewrite connect_unfold.
  destruct (connect_loop_frame bleak (Z.to_nat max_retries) 0 w)
    as (B1 & B2 & B3 & B4 & B5 & B6).
  destruct (connect_loop bleak (Z.to_nat max_retries) 0 w) as [w1 [[]|e]];
    cbn [fst snd] in *.
  - destruct (client_is_connected (_client w1)) eqn:Ec; cbn [fst snd];
      (repeat split; try assumption; try lia; try discriminate;
       try (intro; apply B6; lia); try (intros _; assumption)).
  - repeat split; try assumption; try lia; try discriminate;
      try (intro; apply B6; lia).
Qed.

Lemma total_sleep_app (a b : list event) :
  total_sleep (a ++ b) = total_sleep a + total_sleep b.
Proof.
  induction a as [|ev a IH]; [reflexivity|].
  destruct ev; cbn [app total_sleep]; rewrite IH; lia.
Qed.

Lemma total_sleep_failed_rounds (n : nat) :
  forall i : Z,
    total_sleep (failed_rounds n i)
      = 10 * Z.of_nat n * i + 5 * Z.of_nat n * (Z.of_nat n + 1).
Proof.
  induction n as [|n IH]; intro i; [reflexivity|].
  cbn [failed_rounds total_sleep]. rewrite IH. nia.
Qed.

(** The last failed round ends the trace. *)
Lemma failed_rounds_snoc (n : nat) :
  forall i : Z,
    failed_rounds (Datatypes.S n) i
      = failed_rounds n i
          ++ [Connect; Disconnect; Sleep ((i + Z.of_nat n + 1) * 10)].
Proof.
  induction n as [|n IH]; intro i.
  - cbn. now rewrite Z.add_0_r.
  - change (failed_rounds (Datatypes.S (Datatypes.S n)) i)
      with (Connect :: Disconnect :: Sleep ((i + 1) * 10)
              :: failed_rounds (Datatypes.S n) (i + 1)).
    rewrite IH.
    replace (i + Z.of_nat (Datatypes.S n) + 1) with (i + 1 + Z.of_nat n + 1)
      by lia.
    reflexivity.
Qed.

(** X15.  The waits of a [connect] whose attempts all fail add up to
    [5 * n * (n + 1)] seconds for a budget of [n] attempts (550 seconds
    for the default of 10), and the last wait, of [n * 10] seconds, is
    spent after the final attempt, before the failure is raised. *)
Theorem connect_total_backoff (bleak : Transport) (w : World)
    (max_retries : Z)
    (Hdown : client_is_connected (_client w) = false)
    (Hfail : forall j, (j < Z.to_nat max_retries)%nat ->
       attempt_fails bleak (connect_calls (_client w) + j)
                           (disconnect_calls (_client w) + j)) :
  total_sleep (trace (fst (connect bleak max_retries w)))
    = total_sleep (trace w)
      + 5 * Z.of_nat (Z.to_nat max_retries)
          * (Z.of_nat (Z.to_nat max_retries) + 1) /\
  (1 <= max_retries ->
   exists evs,
     trace (fst (connect bleak max_retries w))
       = evs ++ [Sleep (max_retries * 10)] /\
     snd (connect bleak max_retries w)
       = Raise (Exception
                  (connect_failed_message (_mac (self w)) max_retries))).
Proof.
  rewrite connect_unfold.
  rewrite (connect_loop_all_fail bleak _ 0 w Hfail).
  assert (D : client_is_connected
                (_client (after_failures w (Z.to_nat max_retries) 0)) = false)
    by (unfold after_failures; cbn; destruct (Z.to_nat max_retries);
        [exact Hdown | reflexivity]).
  rewrite D. cbn [fst snd after_failures trace self].
  rewrite total_sleep_app, total_sleep_failed_rounds.
  split; [lia|]. intro H1.
  destruct (Z.to_nat max_retries) as [|n] eqn:En; [lia|].
  exists (trace w ++ failed_rounds n 0 ++ [Connect; Disconnect]).
  split; [|reflexivity].
  rewrite failed_rounds_snoc, <- !app_assoc. cbn [app].
  replace (0 + Z.of_nat n + 1) with max_retries by lia.
  reflexivity.
Qed.

Lemma connect_total_backoff_witness :
  total_sleep (trace (fst (connect transport_down 10 fresh_entity)))
    = total_sleep (trace fresh_entity)
      + 5 * Z.of_nat (Z.to_nat 10) * (Z.of_nat (Z.to_nat 10) + 1).
Proof.
  refine (proj1 (connect_total_backoff transport_down fresh_entity 10 _ _)).
  - reflexivity.
  - intros j _. split; [exists BleakError; split; reflexivity|].
    split; [reflexivity | exact I].
Defined.

(** A loop of at least one pass that ends with the link up has ended
    through its [break], so the callback is installed. *)
Lemma connect_loop_up_registers (bleak : Transport) (n : nat) :
  forall (i : Z) (w : World),
    n <> 0%nat ->
    snd (connect_loop bleak n i w) = Ok tt ->
    client_is_connected (_client (fst (connect_loop bleak n i w))) = true ->
    disconnected_callback (_client (fst (connect_loop bleak n i w)))
      = Some on_disconnect_cb.
Proof.
  induction n as [|n IH]; intros i w Hn; [contradiction|].
  rewrite connect_loop_S.
  destruct (connect_attempt bleak i w) as [w1 [[]|e]]; cbn [fst snd].
  - destruct (client_is_connected (_client w1)) eqn:Ec.
    + intros _ _. reflexivity.
    + destruct n as [|n].
      * cbn [connect_loop ret fst snd]. intros _ Hup. congruence.
      * apply IH. discriminate.
  - discriminate.
Qed.

(** What [disconnect] leaves behind, whether or not the transport's
    close raises. *)
Lemma disconnect_effects (bleak : Transport) (w : World) :
  disconnected_callback (_client (fst (disconnect bleak w))) = None /\
  self (fst (disconnect bleak w)) = self w /\
  trace (fst (disconnect bleak w))
    = trace w ++ [SetDisconnectedCallback None; Disconnect] /\
  snd (disconnect bleak w)
    = match raised (disconnect_result bleak (disconnect_calls (_client w)))
      with
      | Some e => Raise e
      | None => Ok tt
      end.
Proof.
  destruct w as [s [c cb nc nd nw] tr].
  unfold disconnect, set_disconnected_callback, client_disconnect, bind,
    emit, update_client, outcome, ret, raise.
  cbn.
  destruct (raised (disconnect_result bleak nd));
    rewrite <- ?app_assoc; repeat split; reflexivity.
Qed.

(** X16.  Disconnecting and connecting again: [disconnect] leaves the
    disconnect callback unregistered, also when the transport's close
    raises (the exception reaches the caller).  On a session whose
    callback is unregistered, a [connect] with a budget of at least one
    attempt re-registers the callback exactly when it returns normally:
    after a [connect] that raises the callback is still unregistered,
    and a [connect] that returns has installed it, on a link that is
    up. *)
Theorem reconnect_restores_callback (bleak : Transport) (max_retries : Z)
    (w : World)
    (Hbudget : 1 <= max_retries)
    (Hnone : disconnected_callback (_client w) = None) :
  (forall w0,
     disconnected_callback (_client (fst (disconnect bleak w0))) = None /\
     snd (disconnect bleak w0)
       = match raised (disconnect_result bleak
                         (disconnect_calls (_client w0)))
         with
         | Some e => Raise e
         | None => Ok tt
         end) /\
  (snd (connect bleak max_retries w) = Ok tt <->
   disconnected_callback (_client (fst (connect bleak max_retries w)))
     = Some on_disconnect_cb) /\
  (forall e, snd (connect bleak max_retries w) = Raise e ->
   disconnected_callback (_client (fst (connect bleak max_retries w)))
     = None) /\
  (snd (connect bleak max_retries w) = Ok tt ->
   client_is_connected (_client (fst (connect bleak max_retries w)))
     = true).
Proof.
  split.
  { intro w0. destruct (disconnect_effects bleak w0) as (A & _ & _ & B).
    split; assumption. }
  rewrite connect_unfold.
  pose proof (connect_loop_up_registers bleak (Z.to_nat max_retries) 0 w
                ltac:(lia)) as U.
  destruct (connect_loop_effects bleak (Z.to_nat max_retries) 0 w)
    as (evs & _ & D).
  destruct (connect_loop bleak (Z.to_nat max_retries) 0 w) as [w1 [[]|e]];
    cbn [fst snd] in *.
  - destruct (client_is_connected (_client w1)) eqn:Ec; cbn [fst snd].
    + specialize (U eq_refl eq_refl).
      split; [split; intros _; [exact U | reflexivity]|].
      split; [discriminate | intros _; exact Ec].
    + assert (N : disconnected_callback (_client w1) = None).
      { destruct D as [[_ D] | (_ & K & _)]; [congruence | discriminate]. }
      split; [split; [discriminate | congruence]|].
      split; [intros _ _; exact N | discriminate].
  - assert (N : disconnected_callback (_client w1) = None).
    { destruct D as [[_ D] | (R & _)]; [congruence | discriminate]. }
    split; [split; [discriminate | congruence]|].
    split; [intros _ _; exact N | discriminate].
Qed.

Lemma reconnect_restores_callback_witness :
  snd (connect transport_up 3 (fst (disconnect transport_up connected_entity)))
    = Ok tt <->
  disconnected_callback
    (_client (fst (connect transport_up 3
                     (fst (disconnect transport_up connected_entity)))))
    = Some on_disconnect_cb.
Proof.
  refine (proj1 (proj2 (reconnect_restores_callback transport_up 3
                          (fst (disconnect transport_up connected_entity))
                          _ _))).
  - lia.
  - reflexivity.
Defined.

(* ================================================================== *)
(** ** Properties of the subscription manager *)

Section SubscriptionFacts.

Variable bleak : Transport.
Variable notify_result : nat -> call_result.
Variable uuid : string.

(** A failed pass: one registration attempt, one wait. *)
Lemma subscribe_attempt_fails (i : Z) (s : Session) :
  notify_fails notify_result (notify_calls s) ->
  exists s',
    subscribe_attempt notify_result uuid i s = (s', Ok false) /\
    session_trace s'
      = session_trace s ++ [StartNotify uuid; Base (Sleep ((i + 1) * 3))] /\
    notify_calls s' = Datatypes.S (notify_calls s) /\
    session_self s' = session_self s /\
    connect_calls (session_client s') = connect_calls (session_client s).
Proof.
  intros (e & He & Hc).
  destruct s as [ent [c cb nc nd nw] k tr].
  unfold subscribe_attempt, stry_except, sbind, client_start_notify,
    in_world, sleep, emit, sret.
  cbn in *. rewrite He, Hc. cbn.
  eexists. split; [reflexivity|].
  cbn. rewrite <- app_assoc. repeat split; reflexivity.
Qed.

(** A pass that registers the handler. *)
Lemma subscribe_attempt_succeeds (i : Z) (s : Session) :
  notify_succeeds notify_result (notify_calls s) ->
  exists s',
    subscribe_attempt notify_result uuid i s = (s', Ok true) /\
    session_trace s' = session_trace s ++ [StartNotify uuid] /\
    notify_calls s' = Datatypes.S (notify_calls s) /\
    session_self s' = session_self s /\
    connect_calls (session_client s') = connect_calls (session_client s).
Proof.
  intro Hr. unfold notify_succeeds in Hr.
  destruct s as [ent [c cb nc nd nw] k tr].
  unfold subscribe_attempt, stry_except, sbind, client_start_notify, sret.
  cbn in *. rewrite Hr.
  eexists. split; [reflexivity|]. repeat split; reflexivity.
Qed.

Lemma subscribe_loop_all_fail (n : nat) :
  forall (i : Z) (s : Session),
    (forall j, (j < n)%nat ->
       notify_fails notify_result (notify_calls s + j)) ->
    exists s',
      subscribe_loop notify_result uuid n i s = (s', Ok false) /\
      session_trace s' = session_trace s ++ failed_subscriptions uuid n i /\
      notify_calls s' = (notify_calls s + n)%nat /\
      session_self s' = session_self s /\
      connect_calls (session_client s') = connect_calls (session_client s).
Proof.
  induction n as [|n IH]; intros i s H.
  - exists s. cbn. rewrite app_nil_r, Nat.add_0_r. repeat split; reflexivity.
  - destruct (subscribe_attempt_fails i s) as (s1 & E1 & T1 & N1 & S1 & C1).
    { specialize (H 0%nat ltac:(lia)). now rewrite Nat.add_0_r in H. }
    destruct (IH (i + 1) s1) as (s2 & E2 & T2 & N2 & S2 & C2).
    { intros j Hj. rewrite N1.
      specialize (H (Datatypes.S j) ltac:(lia)).
      now replace (Datatypes.S (notify_calls s) + j)%nat
        with (notify_calls s + Datatypes.S j)%nat by lia. }
    exists s2. cbn [subscribe_loop]. unfold sbind at 1. rewrite E1.
    split; [exact E2|].
    rewrite T2, T1, <- app_assoc. cbn [failed_subscriptions app].
    repeat split; try congruence. lia.
Qed.

Lemma subscribe_loop_succeeds_after (k : nat) :
  forall (n : nat) (i : Z) (s : Session),
    (k < n)%nat ->
    (forall j, (j < k)%nat ->
       notify_fails notify_result (notify_calls s + j)) ->
    notify_succeeds notify_result (notify_calls s + k) ->
    exists s',
      subscribe_loop notify_result uuid n i s = (s', Ok true) /\
      session_trace s'
        = session_trace s ++ failed_subscriptions uuid k i
            ++ [StartNotify uuid] /\
      notify_calls s' = Datatypes.S (notify_calls s + k) /\
      session_self s' = session_self s /\
      connect_calls (session_client s') = connect_calls (session_client s).
Proof.
  induction k as [|k IH]; intros n i s Hn Hf Hs.
  - destruct n as [|n]; [lia|].
    rewrite Nat.add_0_r in Hs.
    destruct (subscribe_attempt_succeeds i s Hs)
      as (s1 & E1 & T1 & N1 & S1 & C1).
    exists s1. cbn [subscribe_loop]. unfold sbind at 1. rewrite E1.
    unfold sret. rewrite Nat.add_0_r. repeat split; assumption.
  - destruct n as [|n]; [lia|].
    destruct (subscribe_attempt_fails i s) as (s1 & E1 & T1 & N1 & S1 & C1).
    { specialize (Hf 0%nat ltac:(lia)). now rewrite Nat.add_0_r in Hf. }
    destruct (IH n (i + 1) s1) as (s2 & E2 & T2 & N2 & S2 & C2).
    + lia.
    + intros j Hj. rewrite N1.
      specialize (Hf (Datatypes.S j) ltac:(lia)).
      now replace (Datatypes.S (notify_calls s) + j)%nat
        with (notify_calls s + Datatypes.S j)%nat by lia.
    + rewrite N1.
      now replace (Datatypes.S (notify_calls s) + k)%nat
        with (notify_calls s + Datatypes.S k)%nat by lia.
    + exists s2. cbn [subscribe_loop]. unfold sbind at 1. rewrite E1.
      split; [exact E2|].
      rewrite T2, T1, <- !app_assoc. cbn [failed_subscriptions app].
      repeat split; try congruence. lia.
Qed.

(** [subscribe] on a session whose link is up, by the outcome of its
    loop. *)
Lemma subscribe_connected (max_retries : Z) (s : Session) :
  client_is_connected (session_client s) = true ->
  subscribe bleak notify_result uuid max_retries s =
  match subscribe_loop notify_result uuid (Z.to_nat max_retries) 0 s with
  | (s', Ok true) => (s', Ok tt)
  | (s', Ok false) =>
      (mk_Session (session_self s') (session_client s') (notify_calls s')
         (session_trace s' ++ []),
       Raise (Exception
                (subscribe_failed_message uuid (_mac (session_self s'))
                   max_retries)))
  | (s', Raise e) => (s', Raise e)
  end.
Proof.
  intro Hup. destruct s as [ent c k tr]. cbn in Hup.
  unfold subscribe, sbind at 1, in_world at 1, is_connected.
  cbn. rewrite Hup. cbn. unfold sbind at 1, sret at 1.
  rewrite app_nil_r. unfold sbind at 1.
  destruct (subscribe_loop notify_result uuid (Z.to_nat max_retries) 0
              (mk_Session ent c k tr)) as [s' [[]|e]]; reflexivity.
Qed.

End SubscriptionFacts.

Lemma failed_subscriptions_nth (uuid : string) (n : nat) :
  forall (i : Z) (k : nat),
    (k < n)%nat ->
    nth_error (failed_subscriptions uuid n i) (2 * k)
      = Some (StartNotify uuid) /\
    nth_error (failed_subscriptions uuid n i) (2 * k + 1)
      = Some (Base (Sleep ((i + Z.of_nat k + 1) * 3))).
Proof.
  induction n as [|n IH]; intros i k Hk; [lia|].
  destruct k as [|k].
  - cbn. rewrite Z.add_0_r. split; reflexivity.
  - replace (2 * Datatypes.S k)%nat with (Datatypes.S (Datatypes.S (2 * k)))
      by lia.
    cbn [failed_subscriptions nth_error Nat.add].
    destruct (IH (i + 1) k ltac:(lia)) as (A & B).
    split; [exact A|]. rewrite B. do 3 f_equal. lia.
Qed.

(** X17.  [subscribe] on a connected session makes no connect call and
    registers the notification handler with a linear backoff of 3
    seconds per attempt: after the k-th failed registration (from 1) it
    waits 3 k seconds, also after the last one.  If all [max_retries]
    registrations fail it raises the exception whose text carries the
    address, the characteristic and [max_retries]; if an earlier one is
    accepted it returns there. *)
Theorem subscribe_retry_policy (bleak : Transport)
    (notify_result : nat -> call_result) (uuid : string)
    (max_retries : Z) (n : nat) (s : Session)
    (Hup : client_is_connected (session_client s) = true)
    (Hfail : forall j, (j < n)%nat ->
       notify_fails notify_result (notify_calls s + j)) :
  (forall k, (k < n)%nat ->
     nth_error (failed_subscriptions uuid n 0) (2 * k)
       = Some (StartNotify uuid) /\
     nth_error (failed_subscriptions uuid n 0) (2 * k + 1)
       = Some (Base (Sleep ((Z.of_nat k + 1) * 3)))) /\
  (n = Z.to_nat max_retries ->
   snd (subscribe bleak notify_result uuid max_retries s)
     = Raise (Exception
                (subscribe_failed_message uuid (_mac (session_self s))
                   max_retries)) /\
   session_trace (fst (subscribe bleak notify_result uuid max_retries s))
     = session_trace s ++ failed_subscriptions uuid n 0 /\
   connect_calls
     (session_client (fst (subscribe bleak notify_result uuid max_retries s)))
     = connect_calls (session_client s)) /\
  ((n < Z.to_nat max_retries)%nat ->
   notify_succeeds notify_result (notify_calls s + n) ->
   snd (subscribe bleak notify_result uuid max_retries s) = Ok tt /\
   session_trace (fst (subscribe bleak notify_result uuid max_retries s))
     = session_trace s ++ failed_subscriptions uuid n 0
         ++ [StartNotify uuid] /\
   connect_calls
     (session_client (fst (subscribe bleak notify_result uuid max_retries s)))
     = connect_calls (session_client s)).
Proof.
  split; [intros k Hk; apply (failed_subscriptions_nth uuid n 0 k Hk)|].
  rewrite (subscribe_connected bleak notify_result uuid max_retries s Hup).
  split.
  - intros ->.
    destruct (subscribe_loop_all_fail notify_result uuid _ 0 s Hfail)
      as (s' & E & T & N & S' & C).
    rewrite E. cbn [fst snd session_trace session_client].
    rewrite app_nil_r, S'. repeat split; assumption.
  - intros Hn Hs.
    destruct (subscribe_loop_succeeds_after notify_result uuid n _ 0 s
                Hn Hfail Hs) as (s' & E & T & N & S' & C).
    rewrite E. cbn [fst snd]. repeat split; assumption.
Qed.

Lemma subscribe_retry_policy_witness :
  snd (subscribe transport_up notify_third_time notify_uuid 5
         connected_session) = Ok tt /\
  session_trace (fst (subscribe transport_up notify_third_time notify_uuid 5
                        connected_session))
    = session_trace connected_session
        ++ failed_subscriptions notify_uuid 2 0 ++ [StartNotify notify_uuid] /\
  connect_calls
    (session_client (fst (subscribe transport_up notify_third_time
                            notify_uuid 5 connected_session)))
    = connect_calls (session_client connected_session).
Proof.
  refine (proj2 (proj2 (subscribe_retry_policy transport_up notify_third_time
                          notify_uuid 5 2 connected_session _ _)) _ _).
  - reflexivity.
  - intros j Hj. exists BleakError.
    destruct j as [|[|j]]; [split; reflexivity | split; reflexivity | lia].
  - cbn. lia.
  - reflexivity.
Defined.

Section SubscriptionFrame.

Variable bleak : Transport.
Variable notify_result : nat -> call_result.
Variable uuid : string.

(** What one pass of the subscribe loop may change: the notify counter
    goes up by one, the link flag follows the transport; the entity, the
    callback and the other counters stay. *)
Lemma subscribe_attempt_frame (i : Z) (s : Session) :
  session_self (fst (subscribe_attempt notify_result uuid i s))
    = session_self s /\
  connect_calls (session_client (fst (subscribe_attempt notify_result uuid i s)))
    = connect_calls (session_client s) /\
  disconnect_calls
    (session_client (fst (subscribe_attempt notify_result uuid i s)))
    = disconnect_calls (session_client s) /\
  write_calls (session_client (fst (subscribe_attempt notify_result uuid i s)))
    = write_calls (session_client s) /\
  notify_calls (fst (subscribe_attempt notify_result uuid i s))
    = Datatypes.S (notify_calls s).
Proof.
  destruct s as [ent [c cb nc nd nw] k tr].
  unfold subscribe_attempt, stry_except, sbind, client_start_notify,
    in_world, sleep, emit, sret.
  cbn.
  destruct (raised (notify_result k)) as [e|]; cbn;
    [destruct (isinstance_Exception e); cbn|]; repeat split; reflexivity.
Qed.

Lemma subscribe_loop_frame (n : nat) :
  forall (i : Z) (s : Session),
    session_self (fst (subscribe_loop notify_result uuid n i s))
      = session_self s /\
    connect_calls
      (session_client (fst (subscribe_loop notify_result uuid n i s)))
      = connect_calls (session_client s) /\
    disconnect_calls
      (session_client (fst (subscribe_loop notify_result uuid n i s)))
      = disconnect_calls (session_client s) /\
    write_calls
      (session_client (fst (subscribe_loop notify_result uuid n i s)))
      = write_calls (session_client s) /\
    (notify_calls s
       <= notify_calls (fst (subscribe_loop notify_result uuid n i s))
       <= notify_calls s + n)%nat.
Proof.
  induction n as [|n IH]; intros i s.
  - cbn. repeat split; lia.
  - cbn [subscribe_loop]. unfold sbind.
    destruct (subscribe_attempt_frame i s) as (A1 & A2 & A3 & A4 & A5).
    destruct (subscribe_attempt notify_result uuid i s) as [s1 [[|]|e]];
      cbn [fst snd] in *.
    + unfold sret. cbn [fst]. repeat split; try assumption; lia.
    + destruct (IH (i + 1) s1) as (B1 & B2 & B3 & B4 & B5).
      repeat split; try congruence; lia.
    + repeat split; try assumption; lia.
Qed.

(** [connect] returns normally only with the link up, and it leaves the
    entity and the write counter alone. *)
Lemma connect_returns_connected (max_retries : Z) (w : World) :
  self (fst (connect bleak max_retries w)) = self w /\
  write_calls (_client (fst (connect bleak max_retries w)))
    = write_calls (_client w) /\
  (snd (connect bleak max_retries w) = Ok tt ->
   client_is_connected (_client (fst (connect bleak max_retries w))) = true).
Proof.
  rewrite connect_unfold.
  destruct (connect_loop_frame bleak (Z.to_nat max_retries) 0 w)
    as (B1 & B2 & _).
  destruct (connect_loop bleak (Z.to_nat max_retries) 0 w) as [w1 [[]|e]];
    cbn [fst snd] in *.
  - destruct (client_is_connected (_client w1)) eqn:Ec; cbn [fst snd];
      repeat split; try assumption; try discriminate.
    intros _. assumption.
  - repeat split; try assumption; discriminate.
Qed.

(** [subscribe] on a session whose link is down, by the outcome of the
    connect it starts with. *)
Lemma subscribe_disconnected (max_retries : Z) (s : Session) :
  client_is_connected (session_client s) = false ->
  subscribe bleak notify_result uuid max_retries s =
  match connect bleak connect_default_max_retries (world_of s) with
  | (w', Ok _) =>
      subscribe bleak notify_result uuid max_retries
        (mk_Session (self w') (_client w') (notify_calls s)
           (session_trace s ++ List.map Base (trace w')))
  | (w', Raise e) =>
      (mk_Session (self w') (_client w') (notify_calls s)
         (session_trace s ++ List.map Base (trace w')),
       Raise e)
  end.
Proof.
  intro Hdown. destruct s as [ent c k tr]. cbn in Hdown.
  pose proof (connect_returns_connected connect_default_max_retries
                (mk_World ent c [])) as (_ & _ & K).
  unfold subscribe at 1, sbind at 1, in_world at 1, is_connected, world_of.
  cbn. rewrite Hdown. cbn [negb]. unfold sbind at 1, in_world at 1.
  cbn [session_self session_client notify_calls session_trace].
  rewrite app_nil_r.
  destruct (connect bleak connect_default_max_retries (mk_World ent c []))
    as [w' [[]|e]]; [|reflexivity].
  cbn [fst snd] in K. specialize (K eq_refl).
  unfold subscribe, sbind at 2, in_world at 1, is_connected.
  cbn. rewrite K. cbn [negb]. unfold sbind at 2, sret at 1.
  rewrite app_nil_r. reflexivity.
Qed.

(** [connect_and_subscribe], by the outcome of its connect. *)
Lemma connect_and_subscribe_unfold (max_retries : Z) (s : Session) :
  connect_and_subscribe bleak notify_result uuid max_retries s =
  match connect bleak max_retries (world_of s) with
  | (w', Ok _) =>
      subscribe bleak notify_result uuid max_retries
        (mk_Session (self w') (_client w') (notify_calls s)
           (session_trace s ++ List.map Base (trace w')))
  | (w', Raise e) =>
      (mk_Session (self w') (_client w') (notify_calls s)
         (session_trace s ++ List.map Base (trace w')),
       Raise e)
  end.
Proof.
  unfold connect_and_subscribe, sbind, in_world, world_of.
  destruct (connect bleak max_retries
              (mk_World (session_self s) (session_client s) []))
    as [w' [[]|e]]; reflexivity.
Qed.

End SubscriptionFrame.

(** X18.  [subscribe] on a session whose link is down first runs
    [connect] with that method's default of 10 attempts, whatever its own
    [max_retries]: if this connect raises, [subscribe] raises the same
    exception without a single registration attempt; if it returns,
    [subscribe] goes on exactly as on the then connected session. *)
Theorem subscribe_reconnects_with_default (bleak : Transport)
    (notify_result : nat -> call_result) (uuid : string)
    (max_retries : Z) (s : Session)
    (Hdown : client_is_connected (session_client s) = false) :
  (forall e,
     snd (connect bleak 10 (world_of s)) = Raise e ->
     snd (subscribe bleak notify_result uuid max_retries s) = Raise e /\
     notify_calls (fst (subscribe bleak notify_result uuid max_retries s))
       = notify_calls s /\
     session_client (fst (subscribe bleak notify_result uuid max_retries s))
       = _client (fst (connect bleak 10 (world_of s))) /\
     session_trace (fst (subscribe bleak notify_result uuid max_retries s))
       = session_trace s
           ++ List.map Base (trace (fst (connect bleak 10 (world_of s))))) /\
  (snd (connect bleak 10 (world_of s)) = Ok tt ->
   subscribe bleak notify_result uuid max_retries s
     = subscribe bleak notify_result uuid max_retries
         (mk_Session (self (fst (connect bleak 10 (world_of s))))
            (_client (fst (connect bleak 10 (world_of s))))
            (notify_calls s)
            (session_trace s
               ++ List.map Base (trace (fst (connect bleak 10 (world_of s))))))).
Proof.
  rewrite (subscribe_disconnected bleak notify_result uuid max_retries s Hdown).
  change connect_default_max_retries with 10.
  destruct (connect bleak 10 (world_of s)) as [w' [[]|e]]; cbn [fst snd].
  - split; [discriminate | reflexivity].
  - split; [|discriminate].
    intros e' E. injection E as <-. repeat split; reflexivity.
Qed.

Lemma subscribe_reconnects_with_default_witness :
  snd (subscribe transport_down notify_never notify_uuid 1
         (new_session "C0:FF:EE:00:00:01"))
    = Raise (Exception
               "Failed to connect to C0:FF:EE:00:00:01 after 10 attempts.") /\
  notify_calls (fst (subscribe transport_down notify_never notify_uuid 1
                       (new_session "C0:FF:EE:00:00:01")))
    = notify_calls (new_session "C0:FF:EE:00:00:01") /\
  session_client (fst (subscribe transport_down notify_never notify_uuid 1
                         (new_session "C0:FF:EE:00:00:01")))
    = _client (fst (connect transport_down 10
                      (world_of (new_session "C0:FF:EE:00:00:01")))) /\
  session_trace (fst (subscribe transport_down notify_never notify_uuid 1
                        (new_session "C0:FF:EE:00:00:01")))
    = session_trace (new_session "C0:FF:EE:00:00:01")
        ++ List.map Base
             (trace (fst (connect transport_down 10
                            (world_of (new_session "C0:FF:EE:00:00:01"))))).
Proof.
  refine (proj1 (subscribe_reconnects_with_default transport_down notify_never
                   notify_uuid 1 (new_session "C0:FF:EE:00:00:01") _) _ _).
  - reflexivity.
  - vm_compute. reflexivity.
Defined.

(** X19.  [connect_and_subscribe] is strictly sequential: if its connect
    raises, the exception is the result and no registration is
    attempted; if its connect returns, the subscription that follows
    makes no further connect or disconnect call. *)
Theorem connect_and_subscribe_sequence (bleak : Transport)
    (notify_result : nat -> call_result) (uuid : string)
    (max_retries : Z) (s : Session) :
  (forall e,
     snd (connect bleak max_retries (world_of s)) = Raise e ->
     snd (connect_and_subscribe bleak notify_result uuid max_retries s)
       = Raise e /\
     notify_calls
       (fst (connect_and_subscribe bleak notify_result uuid max_retries s))
       = notify_calls s) /\
  (snd (connect bleak max_retries (world_of s)) = Ok tt ->
   connect_calls
     (session_client
        (fst (connect_and_subscribe bleak notify_result uuid max_retries s)))
     = connect_calls (_client (fst (connect bleak max_retries (world_of s))))
   /\
   disconnect_calls
     (session_client
        (fst (connect_and_subscribe bleak notify_result uuid max_retries s)))
     = disconnect_calls
         (_client (fst (connect bleak max_retries (world_of s)))) /\
   (notify_calls
      (fst (connect_and_subscribe bleak notify_result uuid max_retries s))
    <= notify_calls s + Z.to_nat max_retries)%nat).
Proof.
  pose proof (connect_returns_connected bleak max_retries (world_of s))
    as (_ & _ & K).
  rewrite connect_and_subscribe_unfold.
  destruct (connect bleak max_retries (world_of s)) as [w' [[]|e]];
    cbn [fst snd] in *.
  - split; [discriminate|]. intros _. specialize (K eq_refl).
    rewrite subscribe_connected by exact K.
    pose proof (subscribe_loop_frame notify_result uuid
                  (Z.to_nat max_retries) 0
                  (mk_Session (self w') (_client w') (notify_calls s)
                     (session_trace s ++ List.map Base (trace w'))))
      as (_ & F2 & F3 & _ & F5).
    destruct (subscribe_loop notify_result uuid (Z.to_nat max_retries) 0 _)
      as [s' [[|]|e]]; cbn [fst snd session_client notify_calls] in *;
      repeat split; try assumption; lia.
  - split; [|discriminate].
    intros e' E. injection E as <-. split; reflexivity.
Qed.

Section SubscriptionPost.

Variable bleak : Transport.
Variable notify_result : nat -> call_result.
Variable uuid : string.

(** A pass leaves the loop through [break] only when its registration
    returned. *)
Lemma subscribe_attempt_true (i : Z) (s : Session) :
  snd (subscribe_attempt notify_result uuid i s) = Ok true ->
  raised (notify_result (notify_calls s)) = None.
Proof.
  destruct s as [ent [c cb nc nd nw] k tr].
  unfold subscribe_attempt, stry_except, sbind, client_start_notify,
    in_world, sleep, emit, sret.
  cbn.
  destruct (raised (notify_result k)) as [e|]; cbn; [|reflexivity].
  destruct (isinstance_Exception e); cbn; discriminate.
Qed.

Lemma subscribe_loop_true (n : nat) :
  forall (i : Z) (s : Session),
    snd (subscribe_loop notify_result uuid n i s) = Ok true ->
    (notify_calls s + 1
     <= notify_calls (fst (subscribe_loop notify_result uuid n i s)))%nat /\
    raised (notify_result
              (notify_calls (fst (subscribe_loop notify_result uuid n i s))
               - 1)%nat) = None.
Proof.
  induction n as [|n IH]; intros i s; [cbn; discriminate|].
  cbn [subscribe_loop]. unfold sbind.
  pose proof (subscribe_attempt_true i s) as T.
  destruct (subscribe_attempt_frame notify_result uuid i s)
    as (_ & _ & _ & _ & A5).
  destruct (subscribe_attempt notify_result uuid i s) as [s1 [[|]|e]];
    cbn [fst snd] in *.
  - intros _. unfold sret. cbn [fst]. rewrite A5. split; [lia|].
    replace (Datatypes.S (notify_calls s) - 1)%nat with (notify_calls s)
      by lia.
    now apply T.
  - intro H. destruct (IH (i + 1) s1 H) as (B1 & B2).
    split; [lia | exact B2].
  - discriminate.
Qed.

(** The frame and the postcondition of [subscribe] on a connected
    session. *)
Lemma subscribe_connected_frame (max_retries : Z) (s : Session) :
  client_is_connected (session_client s) = true ->
  session_self (fst (subscribe bleak notify_result uuid max_retries s))
    = session_self s /\
  write_calls
    (session_client (fst (subscribe bleak notify_result uuid max_retries s)))
    = write_calls (session_client s) /\
  (notify_calls s
     <= notify_calls (fst (subscribe bleak notify_result uuid max_retries s))
     <= notify_calls s + Z.to_nat max_retries)%nat /\
  (snd (subscribe bleak notify_result uuid max_retries s) = Ok tt ->
   (notify_calls s + 1
    <= notify_calls
         (fst (subscribe bleak notify_result uuid max_retries s)))%nat /\
   raised (notify_result
             (notify_calls
                (fst (subscribe bleak notify_result uuid max_retries s))
              - 1)%nat) = None).
Proof.
  intro Hup. rewrite (subscribe_connected bleak notify_result uuid _ s Hup).
  pose proof (subscribe_loop_frame notify_result uuid
                (Z.to_nat max_retries) 0 s) as (F1 & _ & _ & F4 & F5).
  pose proof (subscribe_loop_true (Z.to_nat max_retries) 0 s) as T.
  destruct (subscribe_loop notify_result uuid (Z.to_nat max_retries) 0 s)
    as [s' [[|]|e]];
    cbn [fst snd session_self session_client notify_calls] in *;
    repeat split; try assumption; try lia; try discriminate;
    apply (T eq_refl).
Qed.

End SubscriptionPost.

(** X21.  Whatever the BLE stack does, [subscribe] never changes the
    stored status and never writes a command, and it makes at most
    [max_retries] registration attempts; it returns normally only after
    a registration of the handler that the transport accepted, its last
    one. *)
Theorem subscribe_frame (bleak : Transport)
    (notify_result : nat -> call_result) (uuid : string)
    (max_retries : Z) (s : Session) :
  session_self (fst (subscribe bleak notify_result uuid max_retries s))
    = session_self s /\
  write_calls
    (session_client (fst (subscribe bleak notify_result uuid max_retries s)))
    = write_calls (session_client s) /\
  (notify_calls s
     <= notify_calls (fst (subscribe bleak notify_result uuid max_retries s))
     <= notify_calls s + Z.to_nat max_retries)%nat /\
  (snd (subscribe bleak notify_result uuid max_retries s) = Ok tt ->
   (notify_calls s + 1
    <= notify_calls
         (fst (subscribe bleak notify_result uuid max_retries s)))%nat /\
   raised (notify_result
             (notify_calls
                (fst (subscribe bleak notify_result uuid max_retries s))
              - 1)%nat) = None).
Proof.
  destruct (client_is_connected (session_client s)) eqn:Hc.
  - now apply subscribe_connected_frame.
  - rewrite (subscribe_disconnected bleak notify_result uuid max_retries s Hc).
    pose proof (connect_returns_connected bleak connect_default_max_retries
                  (world_of s)) as (K1 & K2 & K3).
    destruct (connect bleak connect_default_max_retries (world_of s))
      as [w' [[]|e]]; cbn [fst snd] in *.
    + pose proof (subscribe_connected_frame bleak notify_result uuid
                    max_retries
                    (mk_Session (self w') (_client w') (notify_calls s)
                       (session_trace s ++ List.map Base (trace w')))
                    (K3 eq_refl)) as (G1 & G2 & G3 & G4).
      unfold world_of in K1, K2. cbn [self _client] in K1, K2.
      split; [rewrite G1; exact K1|]. split; [rewrite G2; exact K2|].
      split; [exact G3 | exact G4].
    + unfold world_of in K1, K2. cbn [self _client] in K1, K2.
      cbn [session_self session_client notify_calls].
      split; [exact K1|]. split; [exact K2|]. split; [lia | discriminate].
Qed.

Section UpdateData.

Variable bleak : Transport.
Variable notify_result : nat -> call_result.
Variable uuid : string.

(** [update_data] by the state of the link. *)
Lemma update_data_up (s : Session) :
  client_is_connected (session_client s) = true ->
  update_data bleak notify_result uuid s = (s, Ok tt).
Proof.
  destruct s as [ent c k tr]. intro H. cbn in H.
  unfold update_data, sbind, in_world, is_connected.
  cbn. rewrite H. cbn. rewrite app_nil_r. reflexivity.
Qed.

Lemma update_data_down (s : Session) :
  client_is_connected (session_client s) = false ->
  update_data bleak notify_result uuid s
    = connect_and_subscribe bleak notify_result uuid 10 s.
Proof.
  destruct s as [ent c k tr]. intro H. cbn in H.
  unfold update_data. unfold sbind at 1, in_world at 1, is_connected.
  cbn [session_self session_client notify_calls session_trace self _client
       trace List.map].
  rewrite H, app_nil_r. reflexivity.
Qed.

(** The number of connect calls of one [connect]. *)
Lemma connect_calls_bound (max_retries : Z) (w : World) :
  (connect_calls (_client w)
     <= connect_calls (_client (fst (connect bleak max_retries w)))
     <= connect_calls (_client w) + Z.to_nat max_retries)%nat.
Proof.
  rewrite connect_unfold.
  destruct (connect_loop_frame bleak (Z.to_nat max_retries) 0 w)
    as (_ & _ & B & _).
  destruct (connect_loop bleak (Z.to_nat max_retries) 0 w) as [w1 [[]|e]];
    cbn [fst snd] in *; [|exact B].
  destruct (client_is_connected (_client w1)); exact B.
Qed.

(** [subscribe] on a connected session makes no connect call. *)
Lemma subscribe_connected_no_connect (max_retries : Z) (s : Session) :
  client_is_connected (session_client s) = true ->
  connect_calls
    (session_client (fst (subscribe bleak notify_result uuid max_retries s)))
    = connect_calls (session_client s).
Proof.
  intro Hup. rewrite (subscribe_connected bleak notify_result uuid _ s Hup).
  pose proof (subscribe_loop_frame notify_result uuid
                (Z.to_nat max_retries) 0 s) as (_ & F & _).
  destruct (subscribe_loop notify_result uuid (Z.to_nat max_retries) 0 s)
    as [s' [[|]|e]]; exact F.
Qed.

End UpdateData.

(** X20.  A poll through [update_data], whatever the BLE stack does:
    on a session whose link is up it does nothing at all; otherwise it
    makes at most 10 connect calls and at most 10 registration attempts;
    it never changes the stored status and never writes a command; and
    when the link was down it returns normally only after a registration
    of the handler that the transport accepted, its last one. *)
Theorem update_data_frame (bleak : Transport)
    (notify_result : nat -> call_result) (uuid : string) (s : Session) :
  (client_is_connected (session_client s) = true ->
   update_data bleak notify_result uuid s = (s, Ok tt)) /\
  session_self (fst (update_data bleak notify_result uuid s))
    = session_self s /\
  write_calls (session_client (fst (update_data bleak notify_result uuid s)))
    = write_calls (session_client s) /\
  (connect_calls (session_client s)
     <= connect_calls
          (session_client (fst (update_data bleak notify_result uuid s)))
     <= connect_calls (session_client s) + 10)%nat /\
  (notify_calls s
     <= notify_calls (fst (update_data bleak notify_result uuid s))
     <= notify_calls s + 10)%nat /\
  (client_is_connected (session_client s) = false ->
   snd (update_data bleak notify_result uuid s) = Ok tt ->
   (notify_calls s + 1
    <= notify_calls (fst (update_data bleak notify_result uuid s)))%nat /\
   raised (notify_result
             (notify_calls (fst (update_data bleak notify_result uuid s))
              - 1)%nat) = None).
Proof.
  split; [apply update_data_up|].
  destruct (client_is_connected (session_client s)) eqn:Hc.
  - rewrite (update_data_up bleak notify_result uuid s Hc). cbn [fst snd].
    repeat split; try lia; discriminate.
  - rewrite (update_data_down bleak notify_result uuid s Hc).
    rewrite connect_and_subscribe_unfold.
    pose proof (connect_returns_connected bleak 10 (world_of s))
      as (K1 & K2 & K3).
    pose proof (connect_calls_bound bleak 10 (world_of s)) as K4.
    unfold world_of in K1, K2, K4. cbn [self _client] in K1, K2, K4.
    fold (world_of s) in K1, K2, K4.
    destruct (connect bleak 10 (world_of s)) as [w' [[]|e]];
      cbn [fst snd] in *.
    + specialize (K3 eq_refl).
      pose proof (subscribe_connected_frame bleak notify_result uuid 10
                    (mk_Session (self w') (_client w') (notify_calls s)
                       (session_trace s ++ List.map Base (trace w'))) K3)
        as (G1 & G2 & G3 & G4).
      pose proof (subscribe_connected_no_connect bleak notify_result uuid 10
                    (mk_Session (self w') (_client w') (notify_calls s)
                       (session_trace s ++ List.map Base (trace w'))) K3)
        as G5.
      cbn [session_self session_client notify_calls] in G1, G2, G3, G4, G5.
      change (Z.to_nat 10) with 10%nat in *.
      split; [congruence|]. split; [congruence|].
      split; [rewrite G5; exact K4|].
      split; [exact G3|]. intros _. exact G4.
    + cbn [session_self session_client notify_calls].
      change (Z.to_nat 10) with 10%nat in *.
      split; [exact K1|]. split; [exact K2|]. split; [exact K4|].
      split; [lia|]. intros _. discriminate.
Qed.
